(** * syslog-gollector: the collector's main program and administrative handlers

    A shallow embedding of [syslog-gollector.go]: the command-line
    configuration ([init]), the start-up sequence of [main] with the wiring of
    the two channels, and the administrative handlers [isPretty],
    [ServeStatistics] and [ServeDiagnostics].  The packages [input] and
    [output] of the repository are used by [main] through their constructors
    only; the parts of them that a property needs are modelled from the
    design document and are marked as such. *)

From Stdlib Require Import ZArith Lia Ascii String List.
From stdpp Require Import base option list gmap strings.

Local Open Scope string_scope.
Local Open Scope Z_scope.

(** Go's [error] values are carried by their message. *)
Abbreviation error := string (only parsing).

(* ===================================================================== *)
(** * Program parameters and the flag table *)
(* ===================================================================== *)

Module Flags.

(** The package-level parameter variables of [syslog-gollector.go]. *)
Record Config := mkConfig {
  adminIface   : string;
  tcpIface     : string;
  udpIface     : string;
  kBrokers     : string;
  kBatch       : Z;
  kTopic       : string;
  kBufferTime  : Z;
  kBufferBytes : Z;
  pEnabled     : bool;
  cCapacity    : Z
}.

(** Go zero-initialises package variables. *)
Definition zeroConfig : Config :=
  mkConfig "" "" "" "" 0 "" 0 0 false 0.

(** The constant block. *)
Definition adminHost        : string := "localhost:8080".
Definition connTcpHost      : string := "localhost:514".
Definition connUdpHost      : string := "localhost:514".
Definition connType         : string := "tcp".
Definition kafkaBatch       : Z := 10.
Definition kafkaBrokers     : string := "localhost:9092".
Definition kafkaTopic       : string := "logs".
Definition kafkaBufferTime  : Z := 1000.
Definition kafkaBufferBytes : Z := 512 * 1024.
Definition parseEnabled     : bool := true.
Definition chanCapacity     : Z := 0.

(** A registered flag: the variable it writes (as a setter on [Config]), its
    name, its default and its usage line. *)
Inductive FlagValue :=
| StringValue (set : string -> Config -> Config)
| IntValue    (set : Z -> Config -> Config)
| BoolValue   (set : bool -> Config -> Config).

Record Flag := mkFlag {
  Name     : string;
  Value    : FlagValue;
  Usage    : string
}.

(** The state [flag.StringVar] and friends act on: the table of formal flags
    and the variables they point to. *)
Record FlagSet := mkFlagSet {
  formal : list Flag;
  vars   : Config
}.

(** [flag.StringVar(p, name, value, usage)]: stores the default through the
    pointer and registers the flag. *)
Definition StringVar (set : string -> Config -> Config) (name value usage : string)
    (f : FlagSet) : FlagSet :=
  mkFlagSet (formal f ++ [mkFlag name (StringValue set) usage]) (set value (vars f)).

Definition IntVar (set : Z -> Config -> Config) (name : string) (value : Z)
    (usage : string) (f : FlagSet) : FlagSet :=
  mkFlagSet (formal f ++ [mkFlag name (IntValue set) usage]) (set value (vars f)).

Definition BoolVar (set : bool -> Config -> Config) (name : string) (value : bool)
    (usage : string) (f : FlagSet) : FlagSet :=
  mkFlagSet (formal f ++ [mkFlag name (BoolValue set) usage]) (set value (vars f)).

(** Assignments through the pointers [&adminIface], [&tcpIface], ... *)
Definition set_adminIface v c :=
  mkConfig v (tcpIface c) (udpIface c) (kBrokers c) (kBatch c) (kTopic c)
           (kBufferTime c) (kBufferBytes c) (pEnabled c) (cCapacity c).
Definition set_tcpIface v c :=
  mkConfig (adminIface c) v (udpIface c) (kBrokers c) (kBatch c) (kTopic c)
           (kBufferTime c) (kBufferBytes c) (pEnabled c) (cCapacity c).
Definition set_udpIface v c :=
  mkConfig (adminIface c) (tcpIface c) v (kBrokers c) (kBatch c) (kTopic c)
           (kBufferTime c) (kBufferBytes c) (pEnabled c) (cCapacity c).
Definition set_kBrokers v c :=
  mkConfig (adminIface c) (tcpIface c) (udpIface c) v (kBatch c) (kTopic c)
           (kBufferTime c) (kBufferBytes c) (pEnabled c) (cCapacity c).
Definition set_kBatch v c :=
  mkConfig (adminIface c) (tcpIface c) (udpIface c) (kBrokers c) v (kTopic c)
           (kBufferTime c) (kBufferBytes c) (pEnabled c) (cCapacity c).
Definition set_kTopic v c :=
  mkConfig (adminIface c) (tcpIface c) (udpIface c) (kBrokers c) (kBatch c) v
           (kBufferTime c) (kBufferBytes c) (pEnabled c) (cCapacity c).
Definition set_kBufferTime v c :=
  mkConfig (adminIface c) (tcpIface c) (udpIface c) (kBrokers c) (kBatch c) (kTopic c)
           v (kBufferBytes c) (pEnabled c) (cCapacity c).
Definition set_kBufferBytes v c :=
  mkConfig (adminIface c) (tcpIface c) (udpIface c) (kBrokers c) (kBatch c) (kTopic c)
           (kBufferTime c) v (pEnabled c) (cCapacity c).
Definition set_pEnabled v c :=
  mkConfig (adminIface c) (tcpIface c) (udpIface c) (kBrokers c) (kBatch c) (kTopic c)
           (kBufferTime c) (kBufferBytes c) v (cCapacity c).
Definition set_cCapacity v c :=
  mkConfig (adminIface c) (tcpIface c) (udpIface c) (kBrokers c) (kBatch c) (kTopic c)
           (kBufferTime c) (kBufferBytes c) (pEnabled c) v.

(** [func init()]: the ten registrations, in source order, on the empty
    command-line flag set and the zero-valued variables. *)
Definition init : FlagSet :=
  let f := mkFlagSet [] zeroConfig in
  let f := StringVar set_adminIface "admin" adminHost "Admin interface" f in
  let f := StringVar set_tcpIface "tcp" connTcpHost "TCP bind interface" f in
  let f := StringVar set_udpIface "udp" connUdpHost "UDP interface" f in
  let f := StringVar set_kBrokers "broker" kafkaBrokers "comma-delimited kafka brokers" f in
  let f := StringVar set_kTopic "topic" kafkaTopic "kafka topic" f in
  let f := IntVar set_kBatch "batch" kafkaBatch "Kafka batch size" f in
  let f := IntVar set_kBufferTime "maxbuff" kafkaBufferTime "Kafka client buffer max time (ms)" f in
  let f := IntVar set_kBufferBytes "maxbytes" kafkaBufferBytes "Kafka client buffer max bytes" f in
  let f := BoolVar set_pEnabled "parse" parseEnabled "enable syslog header parsing" f in
  let f := IntVar set_cCapacity "chancap" chanCapacity "channel buffering capacity" f in
  f.

(** ** [flag.Parse]

    The argument loop of Go's [flag] package, as far as the program relies on
    it: an argument is a flag when it has at least two characters and starts
    with [-]; one or two dashes are stripped; [name=value] carries its value,
    a boolean flag without a value is set to true, any other flag takes the
    next argument; parsing stops at the first non-flag argument or at [--]. *)

Fixpoint lookupFlag (name : string) (fs : list Flag) : option Flag :=
  match fs with
  | [] => None
  | f :: rest => if String.eqb (Name f) name then Some f else lookupFlag name rest
  end.

Definition digitOf (a : ascii) : option Z :=
  let n := Z.of_nat (nat_of_ascii a) in
  if (48 <=? n) && (n <=? 57) then Some (n - 48) else None.

Fixpoint parseDigits (s : string) (acc : Z) : option Z :=
  match s with
  | EmptyString => Some acc
  | String a rest =>
      match digitOf a with
      | Some d => parseDigits rest (10 * acc + d)
      | None => None
      end
  end.

(** A decimal numeral without a leading zero (Go reads a numeral with a
    leading zero, or with one of the prefixes 0x, 0o and 0b, in another
    base; those are left out here and rejected). *)
Definition parseDecimal (s : string) : option Z :=
  match s with
  | String "0" (String _ _) => None
  | _ => parseDigits s 0
  end.

(** The value of an integer flag: an optional sign, a numeral, and the
    result within the 64 bits of Go's [int]. *)
Definition parseInt (s : string) : option Z :=
  let r :=
    match s with
    | EmptyString => None
    | String "-" (String _ _ as ds) => Z.opp <$> parseDecimal ds
    | String "+" (String _ _ as ds) => parseDecimal ds
    | _ => parseDecimal s
    end in
  match r with
  | Some n => if (- 2 ^ 63 <=? n) && (n <? 2 ^ 63) then Some n else None
  | None => None
  end.

(** [strconv.ParseBool]. *)
Definition parseBool (s : string) : option bool :=
  if existsb (String.eqb s) ["1"; "t"; "T"; "TRUE"; "true"; "True"] then Some true
  else if existsb (String.eqb s) ["0"; "f"; "F"; "FALSE"; "false"; "False"] then Some false
  else None.

(** Splits [name] at the first [=] that is not its first character. *)
Fixpoint cutEquals (s : string) : string * option string :=
  match s with
  | EmptyString => (EmptyString, None)
  | String "=" rest => (EmptyString, Some rest)
  | String a rest =>
      let '(n, v) := cutEquals rest in (String a n, v)
  end.

Definition splitNameValue (name : string) : string * option string :=
  match name with
  | EmptyString => (EmptyString, None)
  | String a rest => let '(n, v) := cutEquals rest in (String a n, v)
  end.

Inductive ParseResult :=
| Parsed (c : Config) (rest : list string)
| ParseError (msg : string).

(** The loop of [FlagSet.Parse] over [parseOne]: every round consumes one or
    two arguments. *)
Fixpoint parseArgs (fs : list Flag) (c : Config) (args : list string) : ParseResult :=
  match args with
  | [] => Parsed c []
  | s :: rest =>
      match s with
      | String "-" (String b tl as s1) =>
          if String.eqb s "--" then Parsed c rest
          else
            let name := if Ascii.eqb b "-" then tl else s1 in
            match name with
            | EmptyString => ParseError ("bad flag syntax: " +:+ s)
            | String n0 _ =>
                if Ascii.eqb n0 "-" || Ascii.eqb n0 "=" then
                  ParseError ("bad flag syntax: " +:+ s)
                else
                  let '(name, value) := splitNameValue name in
                  match lookupFlag name fs with
                  | None => ParseError ("flag provided but not defined: -" +:+ name)
                  | Some fl =>
                      match Value fl, value with
                      | BoolValue set, None => parseArgs fs (set true c) rest
                      | BoolValue set, Some v =>
                          match parseBool v with
                          | Some b => parseArgs fs (set b c) rest
                          | None => ParseError ("invalid boolean value for -" +:+ name)
                          end
                      | StringValue set, Some v => parseArgs fs (set v c) rest
                      | StringValue set, None =>
                          match rest with
                          | v :: rest' => parseArgs fs (set v c) rest'
                          | [] => ParseError ("flag needs an argument: -" +:+ name)
                          end
                      | IntValue set, Some v =>
                          match parseInt v with
                          | Some n => parseArgs fs (set n c) rest
                          | None => ParseError ("invalid value for flag -" +:+ name)
                          end
                      | IntValue set, None =>
                          match rest with
                          | v :: rest' =>
                              match parseInt v with
                              | Some n => parseArgs fs (set n c) rest'
                              | None => ParseError ("invalid value for flag -" +:+ name)
                              end
                          | [] => ParseError ("flag needs an argument: -" +:+ name)
                          end
                      end
                  end
            end
      | _ => Parsed c args
      end
  end.

(** [flag.Parse()] on the program's own flag set. *)
Definition Parse (args : list string) : ParseResult :=
  parseArgs (formal init) (vars init) args.

(** The values the variables hold once [flag.Parse] has returned. *)
Definition configOf (args : list string) : option Config :=
  match Parse args with
  | Parsed c _ => Some c
  | ParseError _ => None
  end.

(** An argument the loop takes for a flag: a dash and at least one more
    character.  Anything else ends the parsing. *)
Definition looksLikeFlag (s : string) : bool :=
  match s with
  | String "-" (String _ _) => true
  | _ => false
  end.

End Flags.

(** [strings.Split(s, sep)] for a one-character separator. *)
Fixpoint splitOn (sep : ascii) (s : string) : list string :=
  match s with
  | EmptyString => [EmptyString]
  | String a rest =>
      if Ascii.eqb a sep then EmptyString :: splitOn sep rest
      else match splitOn sep rest with
           | [] => [String a EmptyString]
           | hd :: tl => String a hd :: tl
           end
  end.

(* ===================================================================== *)
(** * The RFC5424 header parser *)
(* ===================================================================== *)

(** Package [input] is not among the sources.  This module holds what the
    properties of the parser stage need of it, written from section 4.4 of
    the design: the record a message is decomposed into, the decomposition
    itself, and the stage's counters. *)

Module Rfc5424.

(** One element [[SD-ID name="value" ...]] of the structured-data block. *)
Record SDElement := mkSDElement {
  sdId     : string;
  sdParams : list (string * string)
}.

(** The structured record of a parsed message.  An optional field holds
    [None] for the NILVALUE token [-]. *)
Record Message := mkMessage {
  priority       : Z;
  facility       : Z;
  severity       : Z;
  version        : Z;
  timestamp      : option string;
  hostname       : option string;
  appName        : option string;
  procId         : option string;
  msgId          : option string;
  structuredData : option (list SDElement);
  message        : string
}.

(** Why a message was not decomposed. *)
Inductive ParseFailure :=
| MalformedPri
| MissingField (field : string)
| UnterminatedStructuredData
| MalformedStructuredData.

(** The error monad the parser threads its failures through. *)
Definition Result (A : Type) : Type := ParseFailure + A.

Definition bindR {A B : Type} (r : Result A) (k : A -> Result B) : Result B :=
  match r with
  | inl e => inl e
  | inr a => k a
  end.

Notation "'attempt' x <- r 'in' k" := (bindR r (fun x => k))
  (at level 10, x pattern, r at level 100, k at level 200).

Definition orFail {A : Type} (e : ParseFailure) (o : option A) : Result A :=
  match o with
  | Some a => inr a
  | None => inl e
  end.

Definition isDigit (a : ascii) : bool :=
  let n := nat_of_ascii a in (Nat.leb 48 n) && (Nat.leb n 57).

Definition isSpace (a : ascii) : bool := Ascii.eqb a " ".

(** The longest prefix whose characters satisfy [p], and what follows it. *)
Fixpoint span (p : ascii -> bool) (s : string) : string * string :=
  match s with
  | EmptyString => (EmptyString, EmptyString)
  | String a rest =>
      if p a then let '(tok, rest') := span p rest in (String a tok, rest')
      else (EmptyString, s)
  end.

Fixpoint decimal (s : string) (acc : Z) : Z :=
  match s with
  | EmptyString => acc
  | String a rest => decimal rest (10 * acc + (Z.of_nat (nat_of_ascii a) - 48))
  end.

(** A non-empty run of digits, read in decimal. *)
Definition number (s : string) : option (Z * string) :=
  let '(ds, rest) := span isDigit s in
  match ds with
  | EmptyString => None
  | _ => Some (decimal ds 0, rest)
  end.

(** [<PRI>]: the priority value between angle brackets. *)
Definition parsePri (s : string) : option (Z * string) :=
  match s with
  | String "<" rest =>
      match number rest with
      | Some (p, String ">" rest') => Some (p, rest')
      | _ => None
      end
  | _ => None
  end.

(** [VERSION SP]. *)
Definition parseVersion (s : string) : option (Z * string) :=
  match number s with
  | Some (v, String " " rest) => Some (v, rest)
  | _ => None
  end.

Definition nilValue (tok : string) : option string :=
  if String.eqb tok "-" then None else Some tok.

(** [FIELD SP]: a non-empty run of non-blank characters followed by the
    blank that separates it from the next field. *)
Definition parseField (s : string) : option (option string * string) :=
  let '(tok, rest) := span (fun a => negb (isSpace a)) s in
  match tok, rest with
  | String _ _, String " " rest' => Some (nilValue tok, rest')
  | _, _ => None
  end.

(** ** STRUCTURED-DATA as a character-level state machine *)

Inductive SDState :=
| SDId       (id : string)
| SDName     (name : string)
| SDQuote    (name : string)
| SDValue    (name value : string)
| SDEscape   (name value : string)
| SDAfter
| SDBetween.

Definition snoc (s : string) (a : ascii) : string := s +:+ String a EmptyString.

(** [sdRun st done cur s]: [done] holds the finished elements, [cur] the
    element being read (its id and the parameters so far).  The result is the
    list of elements and the text that follows the block. *)
Fixpoint sdRun (st : SDState) (done : list SDElement) (cur : SDElement) (s : string)
    : Result (list SDElement * string) :=
  match s with
  | EmptyString =>
      match st with
      | SDBetween => inr (done, EmptyString)
      | _ => inl UnterminatedStructuredData
      end
  | String a rest =>
      match st with
      | SDBetween =>
          if Ascii.eqb a "[" then sdRun (SDId EmptyString) done (mkSDElement EmptyString []) rest
          else inr (done, s)
      | SDId id =>
          if Ascii.eqb a "]" then
            match id with
            | EmptyString => inl MalformedStructuredData
            | _ => sdRun SDBetween (done ++ [mkSDElement id []]) cur rest
            end
          else if Ascii.eqb a " " then
            match id with
            | EmptyString => inl MalformedStructuredData
            | _ => sdRun (SDName EmptyString) done (mkSDElement id []) rest
            end
          else sdRun (SDId (snoc id a)) done cur rest
      | SDName name =>
          if Ascii.eqb a "=" then
            match name with
            | EmptyString => inl MalformedStructuredData
            | _ => sdRun (SDQuote name) done cur rest
            end
          else if Ascii.eqb a "]" then inl MalformedStructuredData
          else if Ascii.eqb a " " then inl MalformedStructuredData
          else sdRun (SDName (snoc name a)) done cur rest
      | SDQuote name =>
          (* the value opens with a double quote (character 34) *)
          if Ascii.eqb a (ascii_of_nat 34) then sdRun (SDValue name EmptyString) done cur rest
          else inl MalformedStructuredData
      | SDValue name value =>
          if Ascii.eqb a "\" then sdRun (SDEscape name value) done cur rest
          else if Ascii.eqb a (ascii_of_nat 34) then
            sdRun SDAfter done
                  (mkSDElement (sdId cur) (sdParams cur ++ [(name, value)])) rest
          else sdRun (SDValue name (snoc value a)) done cur rest
      | SDEscape name value => sdRun (SDValue name (snoc value a)) done cur rest
      | SDAfter =>
          if Ascii.eqb a "]" then sdRun SDBetween (done ++ [cur]) cur rest
          else if Ascii.eqb a " " then sdRun (SDName EmptyString) done cur rest
          else inl MalformedStructuredData
      end
  end.

(** [STRUCTURED-DATA]: the NILVALUE, or one or more bracketed elements. *)
Definition parseStructuredData (s : string) : Result (option (list SDElement) * string) :=
  match s with
  | EmptyString => inl (MissingField "STRUCTURED-DATA")
  | String a rest =>
      if Ascii.eqb a "-" then inr (None, rest)
      else if Ascii.eqb a "[" then
        attempt (elems, rest') <- sdRun SDBetween [] (mkSDElement EmptyString []) s in
        inr (Some elems, rest')
      else inl MalformedStructuredData
  end.

(** [[SP MSG]]: nothing, or a blank and the free-text body.  Text that
    follows the structured data without a blank is a violation. *)
Definition parseMsg (s : string) : Result string :=
  match s with
  | EmptyString => inr EmptyString
  | String a rest => if Ascii.eqb a " " then inr rest else inl MalformedStructuredData
  end.

(** The fields after [<PRI>], left to right. *)
Definition parseHeader (p : Z) (s : string) : Result Message :=
  attempt (v, s)    <- orFail (MissingField "VERSION") (parseVersion s) in
  attempt (ts, s)   <- orFail (MissingField "TIMESTAMP") (parseField s) in
  attempt (host, s) <- orFail (MissingField "HOSTNAME") (parseField s) in
  attempt (app, s)  <- orFail (MissingField "APP-NAME") (parseField s) in
  attempt (pid, s)  <- orFail (MissingField "PROCID") (parseField s) in
  attempt (mid, s)  <- orFail (MissingField "MSGID") (parseField s) in
  attempt (sd, s)   <- parseStructuredData s in
  attempt body       <- parseMsg s in
  inr (mkMessage p (p / 8) (p mod 8) v ts host app pid mid sd body).

(** Modelled from the spec: the header decomposition of
    [input.Rfc5424Parser] (package [input] is not among the sources), as
    section 4.4 of the design describes it:
    [<PRI>VERSION SP TIMESTAMP SP HOSTNAME SP APP-NAME SP PROCID SP MSGID SP
    STRUCTURED-DATA [SP MSG]], fields read left to right, [-] for an absent
    optional field, facility = priority / 8 and severity = priority mod 8. *)
Definition Parse (raw : string) : Result Message :=
  attempt (p, s) <- orFail MalformedPri (parsePri raw) in
  parseHeader p s.

(** What the parser stage emits for one raw message: the structured record,
    or the raw message itself with the reason it was not decomposed. *)
Inductive ParsedMessage :=
| Structured  (m : Message)
| Passthrough (raw : string) (reason : ParseFailure).

(** Modelled from the spec: the counters [input.Rfc5424Parser] exposes
    (processed, parse successes, parse errors). *)
Record Rfc5424Parser := mkParser {
  processed     : Z;
  parseSuccess  : Z;
  parseErrors   : Z
}.

(** Modelled from the spec: [input.NewRfc5424Parser()], a parser that has
    seen nothing yet. *)
Definition NewRfc5424Parser : Rfc5424Parser := mkParser 0 0 0.

(** Modelled from the spec: what the parser stage does with one message it
    has taken from its input queue (section 4.4, Enabled mode). *)
Definition parseOne (p : Rfc5424Parser) (raw : string) : Rfc5424Parser * ParsedMessage :=
  match Parse raw with
  | inr m => (mkParser (processed p + 1) (parseSuccess p + 1) (parseErrors p), Structured m)
  | inl e => (mkParser (processed p + 1) (parseSuccess p) (parseErrors p + 1), Passthrough raw e)
  end.

(** Modelled from the spec: [StreamingParse] as a function from the sequence
    of messages taken from the raw queue to the sequence pushed to the parsed
    queue, threading the counters. *)
Fixpoint StreamingParse (p : Rfc5424Parser) (raws : list string)
    : Rfc5424Parser * list ParsedMessage :=
  match raws with
  | [] => (p, [])
  | raw :: rest =>
      let '(p1, out) := parseOne p raw in
      let '(p2, outs) := StreamingParse p1 rest in
      (p2, out :: outs)
  end.

(** Modelled from the spec: the text a parsed message travels as on the
    string-typed parsed queue (section 6, wire output): the body of a
    structured record, the original text of a passthrough. *)
Definition wireText (m : ParsedMessage) : string :=
  match m with
  | Structured r => message r
  | Passthrough raw _ => raw
  end.

Definition isPassthrough (m : ParsedMessage) : bool :=
  match m with
  | Structured _ => false
  | Passthrough _ _ => true
  end.

(** The example line of the design's end-to-end scenario. *)
Definition exampleLine : string :=
  "<34>1 2021-03-01T12:00:00Z host1 app1 123 ID47 - message body".

(** How many outputs are of each kind. *)
Definition countPassthrough (outs : list ParsedMessage) : Z :=
  Z.of_nat (length (filter (fun o => isPassthrough o = true) outs)).

Definition countStructured (outs : list ParsedMessage) : Z :=
  Z.of_nat (length (filter (fun o => isPassthrough o = false) outs)).

(** What one output must be for the raw message it stems from. *)
Definition outputOf (raw : string) (o : ParsedMessage) : Prop :=
  match o with
  | Structured m => Parse raw = inr m
  | Passthrough r e => r = raw /\ Parse raw = inl e
  end.

End Rfc5424.

(* ===================================================================== *)
(** * [main]: start-up, wiring and the run-forever idiom *)
(* ===================================================================== *)

Module Main.
Import Flags.

(** What the process writes: lines of the [log] package and of
    [fmt.Println].  A formatted line keeps its format and its arguments. *)
Inductive Arg := AStr (s : string) | AInt (n : Z) | ABool (b : bool).

Inductive Output :=
| LogPrintln (msg : string)
| LogPrintf  (format : string) (args : list Arg)
| FmtPrintln (args : list string).

(** [strings.Split(kBrokers, ",")]. *)
Definition splitComma (s : string) : list string := splitOn "," s.

(** The resources [main] constructs, by what it passes to their
    constructors.  Channels are named by the order of their creation. *)
Record KafkaProducer := mkKafka {
  msgChan     : nat;
  brokers     : list string;
  topic       : string;
  bufferTime  : Z;
  bufferBytes : Z
}.

Record Server := mkServer {
  iface  : string;
  target : nat        (* the channel given to [StartChan] *)
}.

(** What [http.ListenAndServe] does once called: it serves for as long as
    the process lives, or it returns. *)
Inductive Serve :=
| ServesForever
| Returns (err : option error).

(** The outcomes of the calls [main] makes into the operating system and the
    other packages. *)
Record Env := mkEnv {
  Hostname         : string * option error;
  Getpid           : Z;
  NumCPU           : Z;
  ListenAndServe   : string -> Serve;
  NewKafkaProducer : KafkaProducer -> option error;
  TcpStartChan     : Server -> option error;
  UdpStartChan     : Server -> option error
}.

(** Where a channel comes from: a [make(chan string, n)] of [main], or the
    channel [StreamingParse] hands back. *)
Inductive ChanOrigin :=
| Made (capacity : Z)
| FromStreamingParse.

Inductive AdminState :=
| NotSpawned
| Listening          (* the goroutine is inside [http.ListenAndServe] *)
| Finished.

(** The process: the main goroutine's position and locals, the package-level
    resource variables, the channels made so far (by capacity), the routes
    registered, the admin goroutine, the output, and the exit status once the
    process has ended (1 from [os.Exit(1)], 2 from a run-time panic). *)
Record Proc := mkProc {
  pc         : nat;
  admin      : AdminState;
  out        : list Output;
  exited     : option Z;
  chans      : list ChanOrigin;
  rawChan    : nat;
  prodChan   : nat;
  parser     : option Rfc5424.Rfc5424Parser;
  parserFeed : option (nat * nat);   (* [StreamingParse]: from, to *)
  kafka      : option KafkaProducer;
  tcpServer  : option Server;
  udpServer  : option Server;
  handlers   : list string
}.

Definition start : Proc :=
  mkProc 0 NotSpawned [] None [] 0 0 None None None None None [].

Definition running (p : Proc) : bool :=
  match exited p with
  | None => true
  | Some _ => false
  end.

Definition emit (o : list Output) (p : Proc) : Proc :=
  mkProc (pc p) (admin p) (out p ++ o) (exited p) (chans p) (rawChan p) (prodChan p)
         (parser p) (parserFeed p) (kafka p) (tcpServer p) (udpServer p) (handlers p).

(** [os.Exit(code)]. *)
Definition exit (code : Z) (p : Proc) : Proc :=
  mkProc (pc p) (admin p) (out p) (Some code) (chans p) (rawChan p) (prodChan p)
         (parser p) (parserFeed p) (kafka p) (tcpServer p) (udpServer p) (handlers p).

(** [make(chan string, n)], and the channel a callee returns. *)
Definition newChan (o : ChanOrigin) (p : Proc) : Proc * nat :=
  (mkProc (pc p) (admin p) (out p) (exited p) (chans p ++ [o])
          (rawChan p) (prodChan p) (parser p) (parserFeed p) (kafka p) (tcpServer p)
          (udpServer p) (handlers p),
   length (chans p)).

Definition setChans (raw prod : nat) (p : Proc) : Proc :=
  mkProc (pc p) (admin p) (out p) (exited p) (chans p) raw prod
         (parser p) (parserFeed p) (kafka p) (tcpServer p) (udpServer p) (handlers p).

Definition setParser (q : Rfc5424.Rfc5424Parser) (feed : option (nat * nat)) (p : Proc) : Proc :=
  mkProc (pc p) (admin p) (out p) (exited p) (chans p) (rawChan p) (prodChan p)
         (Some q) feed (kafka p) (tcpServer p) (udpServer p) (handlers p).

Definition setKafka (k : KafkaProducer) (p : Proc) : Proc :=
  mkProc (pc p) (admin p) (out p) (exited p) (chans p) (rawChan p) (prodChan p)
         (parser p) (parserFeed p) (Some k) (tcpServer p) (udpServer p) (handlers p).

Definition setTcp (t : Server) (p : Proc) : Proc :=
  mkProc (pc p) (admin p) (out p) (exited p) (chans p) (rawChan p) (prodChan p)
         (parser p) (parserFeed p) (kafka p) (Some t) (udpServer p) (handlers p).

Definition setUdp (u : Server) (p : Proc) : Proc :=
  mkProc (pc p) (admin p) (out p) (exited p) (chans p) (rawChan p) (prodChan p)
         (parser p) (parserFeed p) (kafka p) (tcpServer p) (Some u) (handlers p).

Definition spawnAdmin (routes : list string) (p : Proc) : Proc :=
  mkProc (pc p) Listening (out p) (exited p) (chans p) (rawChan p) (prodChan p)
         (parser p) (parserFeed p) (kafka p) (tcpServer p) (udpServer p)
         (handlers p ++ routes).

Definition setAdmin (a : AdminState) (p : Proc) : Proc :=
  mkProc (pc p) a (out p) (exited p) (chans p) (rawChan p) (prodChan p)
         (parser p) (parserFeed p) (kafka p) (tcpServer p) (udpServer p) (handlers p).

Definition advance (p : Proc) : Proc :=
  mkProc (S (pc p)) (admin p) (out p) (exited p) (chans p) (rawChan p) (prodChan p)
         (parser p) (parserFeed p) (kafka p) (tcpServer p) (udpServer p) (handlers p).

(** ** The statements of [main], in source order

    The configuration is what [flag.Parse()] left in the parameter
    variables.  Each definition below is one stretch of [main] between two
    points at which the admin goroutine may run. *)

(** [os.Hostname()] and the two start-up lines. *)
Definition stHostname (cfg : Config) (env : Env) (p : Proc) : Proc :=
  let '(hostname, err) := Hostname env in
  match err with
  | Some _ => exit 1 (emit [LogPrintln "unable to determine hostname -- aborting"] p)
  | None =>
      emit [LogPrintf "syslog server starting on %s, PID %d" [AStr hostname; AInt (Getpid env)];
            LogPrintf "machine has %d cores" [AInt (NumCPU env)]] p
  end.

(** "Log config". *)
Definition stLogConfig (cfg : Config) (env : Env) (p : Proc) : Proc :=
  emit [LogPrintf "Admin server: %s" [AStr (adminIface cfg)];
        LogPrintf "kafka brokers: %s" [AStr (kBrokers cfg)];
        LogPrintf "kafka topic: %s" [AStr (kTopic cfg)];
        LogPrintf "kafka batch size: %d" [AInt (kBatch cfg)];
        LogPrintf "kafka buffer time: %dms" [AInt (kBufferTime cfg)];
        LogPrintf "kafka buffer bytes: %d" [AInt (kBufferBytes cfg)];
        LogPrintf "parsing enabled: %t" [ABool (pEnabled cfg)];
        LogPrintf "channel buffering capacity: %d" [AInt (cCapacity cfg)]] p.

(** "Prep the channels" and the parser: [rawChan] and [prodChan] are made
    with the configured capacity (a negative one panics, which ends the
    process with status 2); then [prodChan] is overwritten, by the channel
    [StreamingParse(rawChan)] returns when parsing is enabled, by [rawChan]
    itself when it is not.  In both branches a parser is constructed; in the
    second one nothing is ever started on it.  The error [StreamingParse]
    returns is not looked at.  That [StreamingParse] drains the channel it
    is given and returns the channel of its results is taken from section 2
    of the design. *)
Definition stWire (cfg : Config) (env : Env) (p : Proc) : Proc :=
  if cCapacity cfg <? 0 then exit 2 p
  else
    let '(p, raw) := newChan (Made (cCapacity cfg)) p in
    let '(p, prod) := newChan (Made (cCapacity cfg)) p in
    let p := setChans raw prod p in
    if pEnabled cfg then
      let '(p, parsed) := newChan FromStreamingParse p in
      let p := setParser Rfc5424.NewRfc5424Parser (Some (raw, parsed)) p in
      setChans raw parsed p
    else
      let p := setParser Rfc5424.NewRfc5424Parser None p in
      setChans raw raw p.

(** The two routes and the [go func() { ... }()] that serves them. *)
Definition stAdmin (cfg : Config) (env : Env) (p : Proc) : Proc :=
  spawnAdmin ["/statistics"; "/diagnostics"] p.

(** "Connect to Kafka". *)
Definition stKafka (cfg : Config) (env : Env) (p : Proc) : Proc :=
  let k := mkKafka (prodChan p) (splitComma (kBrokers cfg)) (kTopic cfg)
                   (kBufferTime cfg) (kBufferBytes cfg) in
  match NewKafkaProducer env k with
  | Some e => exit 1 (emit [FmtPrintln ["Failed to create Kafka producer"; e]] p)
  | None => emit [LogPrintf "connected to kafka at %s" [AStr (kBrokers cfg)]] (setKafka k p)
  end.

(** "Start the event servers": TCP, then UDP, both on [rawChan]. *)
Definition stTcp (cfg : Config) (env : Env) (p : Proc) : Proc :=
  let t := mkServer (tcpIface cfg) (rawChan p) in
  let p := setTcp t p in
  match TcpStartChan env t with
  | Some e => exit 1 (emit [FmtPrintln ["Failed to start TCP server"; e]] p)
  | None => emit [LogPrintf "listening on %s for TCP connections" [AStr (tcpIface cfg)]] p
  end.

Definition stUdp (cfg : Config) (env : Env) (p : Proc) : Proc :=
  let u := mkServer (udpIface cfg) (rawChan p) in
  let p := setUdp u p in
  match UdpStartChan env u with
  | Some e => exit 1 (emit [FmtPrintln ["Failed to start UDP server"; e]] p)
  | None => emit [LogPrintf "listening on %s for UDP packets" [AStr (udpIface cfg)]] p
  end.

(** [func main()] after [flag.Parse()]; past its last statement stands
    [select {}], which blocks for ever. *)
Definition mainBody : list (Config -> Env -> Proc -> Proc) :=
  [stHostname; stLogConfig; stWire; stAdmin; stKafka; stTcp; stUdp].


Definition mainStep (cfg : Config) (env : Env) (p : Proc) : Proc :=
  match nth_error mainBody (pc p) with
  | Some st => advance (st cfg env p)
  | None => p
  end.

(** The body of the admin goroutine: [http.ListenAndServe(adminIface, nil)]
    and the test of what it returned.  The goroutine stores the result in
    [main]'s variable [err] and tests it at once; the store and the test are
    one step here, so the value tested is the value just returned.  While
    the server serves, the goroutine does not move. *)
Definition adminStep (cfg : Config) (env : Env) (p : Proc) : Proc :=
  match admin p with
  | Listening =>
      match ListenAndServe env (adminIface cfg) with
      | ServesForever => p
      | Returns (Some e) =>
          exit 1 (emit [FmtPrintln ["Failed to start admin server"; e]] (setAdmin Finished p))
      | Returns None => emit [LogPrintln "Admin server started"] (setAdmin Finished p)
      end
  | _ => p
  end.

(** The scheduler picks a goroutine; a process that has exited does nothing
    more. *)
Inductive Tid := MainT | AdminT.

Definition step (cfg : Config) (env : Env) (p : Proc) (t : Tid) : Proc :=
  if running p then
    match t with
    | MainT => mainStep cfg env p
    | AdminT => adminStep cfg env p
    end
  else p.

Definition run (cfg : Config) (env : Env) (sched : list Tid) : Proc :=
  fold_left (step cfg env) sched start.


(** A schedule that lets both goroutines go as far as they can. *)
Definition toCompletion : list Tid := repeat MainT (length mainBody) ++ [AdminT].

(** ** Start-up conditions *)

Definition isSome {A : Type} (o : option A) : bool :=
  match o with
  | Some _ => true
  | None => false
  end.

Definition hostnameFails (env : Env) : bool := isSome (snd (Hostname env)).

Definition adminFails (cfg : Config) (env : Env) : bool :=
  match ListenAndServe env (adminIface cfg) with
  | Returns (Some _) => true
  | _ => false
  end.

(** The producer, and the servers, as [main] constructs them from a
    configuration whose channels have been made. *)
Definition producerOf (cfg : Config) : KafkaProducer :=
  mkKafka (if pEnabled cfg then 2%nat else 0%nat) (splitComma (kBrokers cfg)) (kTopic cfg)
          (kBufferTime cfg) (kBufferBytes cfg).

Definition kafkaFails (cfg : Config) (env : Env) : bool :=
  isSome (NewKafkaProducer env (producerOf cfg)).

Definition tcpFails (cfg : Config) (env : Env) : bool :=
  isSome (TcpStartChan env (mkServer (tcpIface cfg) 0)).

Definition udpFails (cfg : Config) (env : Env) : bool :=
  isSome (UdpStartChan env (mkServer (udpIface cfg) 0)).

(** The lines the program prints immediately before [os.Exit(1)]. *)
Definition isDiagnostic (o : Output) : bool :=
  match o with
  | LogPrintln msg => String.eqb msg "unable to determine hostname -- aborting"
  | FmtPrintln [what; _] =>
      existsb (String.eqb what)
              ["Failed to start admin server"; "Failed to create Kafka producer";
               "Failed to start TCP server"; "Failed to start UDP server"]
  | _ => false
  end.

Definition lastIsDiagnostic (p : Proc) : bool :=
  match last (out p) with
  | Some o => isDiagnostic o
  | None => false
  end.


(** The status the process ends with, if it ends. *)
Definition expectedExit (cfg : Config) (env : Env) : option Z :=
  if hostnameFails env then Some 1
  else if cCapacity cfg <? 0 then Some 2
  else if adminFails cfg env || kafkaFails cfg env || tcpFails cfg env || udpFails cfg env
       then Some 1
  else None.

(** ** Invariants of the start-up sequence *)

(** What holds of every state the process can be in. *)
Definition inv (cfg : Config) (env : Env) (p : Proc) : Prop :=
  match exited p with
  | Some c => expectedExit cfg env = Some c /\ (c = 1 -> lastIsDiagnostic p = true)
  | None =>
      (pc p <= 7)%nat /\
      ((pc p <= 2)%nat -> chans p = []) /\
      ((pc p <= 3)%nat -> admin p = NotSpawned) /\
      ((1 <= pc p)%nat -> hostnameFails env = false) /\
      ((3 <= pc p)%nat ->
         (cCapacity cfg <? 0) = false /\ rawChan p = 0%nat /\
         prodChan p = msgChan (producerOf cfg)) /\
      ((4 <= pc p)%nat -> admin p <> NotSpawned) /\
      (admin p = Finished -> adminFails cfg env = false) /\
      ((5 <= pc p)%nat -> kafkaFails cfg env = false) /\
      ((6 <= pc p)%nat -> tcpFails cfg env = false) /\
      ((7 <= pc p)%nat -> udpFails cfg env = false)
  end.

(** The feed [main] sets up for the parser. *)
Definition feedOf (cfg : Config) : option (nat * nat) :=
  if pEnabled cfg then Some (0%nat, 2%nat) else None.

(** How the resources hang together, in every state of the process. *)
Definition wired (cfg : Config) (p : Proc) : Prop :=
  ((pc p <= 2)%nat -> chans p = [] /\ parserFeed p = None) /\
  ((pc p <= 4)%nat -> kafka p = None) /\
  ((pc p <= 5)%nat -> tcpServer p = None) /\
  ((pc p <= 6)%nat -> udpServer p = None) /\
  ((3 <= pc p)%nat -> exited p <> Some 2 ->
     rawChan p = 0%nat /\ prodChan p = msgChan (producerOf cfg) /\
     parserFeed p = feedOf cfg /\ parser p = Some Rfc5424.NewRfc5424Parser) /\
  (forall k, kafka p = Some k -> k = producerOf cfg) /\
  (forall t, tcpServer p = Some t -> target t = 0%nat) /\
  (forall u, udpServer p = Some u -> target u = 0%nat) /\
  (exited p = Some 2 -> (pc p <= 3)%nat).

(** The state without what was printed. *)
Definition silence (p : Proc) : Proc :=
  mkProc (pc p) (admin p) [] (exited p) (chans p) (rawChan p) (prodChan p)
         (parser p) (parserFeed p) (kafka p) (tcpServer p) (udpServer p) (handlers p).

(** ** What has been built, by the position of the main goroutine *)

(** The order in which [main] brings its resources into being, as a
    property of a state: what exists once a statement has been passed, and
    what does not exist before. *)
Definition ordered (cfg : Config) (env : Env) (p : Proc) : Prop :=
  (pc p <= 7)%nat /\
  (pc p = 0%nat -> out p = [] /\ exited p = None) /\
  (pc p = 1%nat -> hostnameFails env = true ->
     out p = [LogPrintln "unable to determine hostname -- aborting"] /\ exited p = Some 1) /\
  ((pc p <= 2)%nat -> parser p = None /\ prodChan p = 0%nat) /\
  ((pc p <= 3)%nat -> admin p = NotSpawned /\ handlers p = []) /\
  ((2 <= pc p)%nat -> hostnameFails env = false) /\
  ((4 <= pc p)%nat ->
     (cCapacity cfg <? 0) = false /\ parser p <> None /\ admin p <> NotSpawned /\
     handlers p = ["/statistics"; "/diagnostics"]) /\
  ((6 <= pc p)%nat \/ ((5 <= pc p)%nat /\ exited p = None) ->
     kafkaFails cfg env = false /\ kafka p <> None) /\
  ((7 <= pc p)%nat \/ ((6 <= pc p)%nat /\ exited p = None) ->
     tcpFails cfg env = false /\ tcpServer p <> None) /\
  (kafka p <> None -> kafkaFails cfg env = false) /\
  prodChan p <> 1%nat /\
  (parserFeed p = None \/ parserFeed p = Some (0%nat, 2%nat)) /\
  (chans p = [] \/
   chans p = Made (cCapacity cfg) :: Made (cCapacity cfg)
             :: (if pEnabled cfg then [FromStreamingParse] else [])).

(** A diagnostic tells the truth when the call it names has failed, with
    the error it prints. *)
Definition truthful (cfg : Config) (env : Env) (o : Output) : Prop :=
  match o with
  | LogPrintln msg =>
      msg = "unable to determine hostname -- aborting" /\ hostnameFails env = true
  | FmtPrintln [what; e] =>
      (what = "Failed to start admin server" /\
       ListenAndServe env (adminIface cfg) = Returns (Some e)) \/
      (what = "Failed to create Kafka producer" /\
       NewKafkaProducer env (producerOf cfg) = Some e) \/
      (what = "Failed to start TCP server" /\
       TcpStartChan env (mkServer (tcpIface cfg) 0) = Some e) \/
      (what = "Failed to start UDP server" /\
       UdpStartChan env (mkServer (udpIface cfg) 0) = Some e)
  | _ => False
  end.

End Main.

(* ===================================================================== *)
(** * The message path behind [main]'s wiring *)
(* ===================================================================== *)

Module Pipeline.
Import Rfc5424.

(** Who talks to which channel, read off the resources [main] constructed. *)
Record Wiring := mkWiring {
  tcpChan   : nat;
  udpChan   : nat;
  feed      : option (nat * nat);
  kafkaChan : nat
}.

Definition wiringOf (p : Main.Proc) : option Wiring :=
  match Main.tcpServer p, Main.udpServer p, Main.kafka p with
  | Some t, Some u, Some k =>
      Some (mkWiring (Main.target t) (Main.target u) (Main.parserFeed p) (Main.msgChan k))
  | _, _, _ => None
  end.

(** The messages handed to each channel and not yet taken from it, the
    parser's counters, what the listeners have pushed so far and what the
    producer has taken so far. *)
Record State := mkState {
  queues    : gmap nat (list string);
  counters  : Rfc5424Parser;
  received  : list string;
  delivered : list string
}.

Definition queue (c : nat) (q : gmap nat (list string)) : list string :=
  default [] (q !! c).

Definition push (c : nat) (m : string) (q : gmap nat (list string)) : gmap nat (list string) :=
  <[c := (queue c q ++ [m])%list]> q.

Definition pop (c : nat) (q : gmap nat (list string)) : option (string * gmap nat (list string)) :=
  match queue c q with
  | [] => None
  | m :: rest => Some (m, <[c := rest]> q)
  end.

Definition init (p : Main.Proc) : State :=
  mkState ∅ (default NewRfc5424Parser (Main.parser p)) [] [].

(** What can happen: a listener pushes a message it has framed; the parser
    goroutine (if [StreamingParse] started one) takes a message and pushes
    its result; the producer takes a message. *)
Inductive Event :=
| TcpMessage (m : string)
| UdpMessage (m : string)
| ParserTurn
| ProducerTurn.

Definition react (w : Wiring) (st : State) (ev : Event) : State :=
  match ev with
  | TcpMessage m =>
      mkState (push (tcpChan w) m (queues st)) (counters st) (received st ++ [m]) (delivered st)
  | UdpMessage m =>
      mkState (push (udpChan w) m (queues st)) (counters st) (received st ++ [m]) (delivered st)
  | ParserTurn =>
      match feed w with
      | Some (from, to) =>
          match pop from (queues st) with
          | Some (m, q) =>
              let '(c, pm) := parseOne (counters st) m in
              mkState (push to (wireText pm) q) c (received st) (delivered st)
          | None => st
          end
      | None => st
      end
  | ProducerTurn =>
      match pop (kafkaChan w) (queues st) with
      | Some (m, q) => mkState q (counters st) (received st) (delivered st ++ [m])
      | None => st
      end
  end.

Definition flow (w : Wiring) (p : Main.Proc) (evs : list Event) : State :=
  fold_left (react w) evs (init p).

(** The wiring of the enabled mode, and what it keeps true: [taken] are the
    messages the parser has taken from the raw channel so far. *)
Definition enabledWiring : Wiring := mkWiring 0 0 (Some (0%nat, 2%nat)) 2.

Definition parsedSoFar (p0 : Rfc5424Parser) (st : State) (taken : list string) : Prop :=
  received st = (taken ++ queue 0 (queues st))%list /\
  (delivered st ++ queue 2 (queues st))%list = map wireText (StreamingParse p0 taken).2 /\
  counters st = (StreamingParse p0 taken).1.

End Pipeline.

(* ===================================================================== *)
(** * The administrative handlers *)
(* ===================================================================== *)

Module Admin.

(** ** The request side: [net/url] query parsing and [Request.ParseForm] *)

Abbreviation Values := (gmap string (list string)).

Definition unhex (a : ascii) : option nat :=
  let n := nat_of_ascii a in
  if Nat.leb 48 n && Nat.leb n 57 then Some (n - 48)%nat
  else if Nat.leb 97 n && Nat.leb n 102 then Some (n - 97 + 10)%nat
  else if Nat.leb 65 n && Nat.leb n 70 then Some (n - 65 + 10)%nat
  else None.

(** [url.QueryUnescape]: [%XX] is a byte, [+] a blank; a [%] that is not
    followed by two hexadecimal digits is an error. *)
Fixpoint QueryUnescape (s : string) : option string :=
  match s with
  | EmptyString => Some EmptyString
  | String a rest =>
      if Ascii.eqb a "%" then
        match rest with
        | String h1 (String h2 rest') =>
            match unhex h1, unhex h2 with
            | Some x, Some y => String (ascii_of_nat (16 * x + y)) <$> QueryUnescape rest'
            | _, _ => None
            end
        | _ => None
        end
      else if Ascii.eqb a "+" then String " " <$> QueryUnescape rest
      else String a <$> QueryUnescape rest
  end.

Fixpoint contains (c : ascii) (s : string) : bool :=
  match s with
  | EmptyString => false
  | String a rest => Ascii.eqb a c || contains c rest
  end.

(** [strings.Cut(s, "=")]: the text before the first [=] and the text after
    it (empty when there is none). *)
Fixpoint cutEq (s : string) : string * string :=
  match s with
  | EmptyString => (EmptyString, EmptyString)
  | String a rest =>
      if Ascii.eqb a "=" then (EmptyString, rest)
      else let '(k, v) := cutEq rest in (String a k, v)
  end.

(** One round of the loop of [url.ParseQuery] (Go 1.17 and later) on the
    setting [key].  A setting that does not decode is skipped and the first
    such error kept; the valid settings are added to the map all the same.
    Errors are carried by a short message. *)
Definition addSetting (acc : Values * option error) (key : string) : Values * option error :=
  let '(m, err) := acc in
  if contains ";" key then (m, Some "invalid semicolon separator in query")
  else if String.eqb key "" then (m, err)
  else
    let '(key, value) := cutEq key in
    match QueryUnescape key with
    | None => (m, if err is Some _ then err else Some "invalid URL escape")
    | Some key =>
        match QueryUnescape value with
        | None => (m, if err is Some _ then err else Some "invalid URL escape")
        | Some value => (<[key := (default [] (m !! key) ++ [value])%list]> m, err)
        end
    end.

Definition ParseQuery (query : string) : Values * option error :=
  fold_left addSetting (splitOn "&" query) (∅, None).

(** A request as the handlers see it: the raw query of its URL and the
    form, [None] (Go's nil map) until [ParseForm] has run.  The requests
    considered carry no form body. *)
Record Request := mkRequest {
  RawQuery : string;
  Form     : option Values
}.

(** [req.ParseForm()]: fills [Form] from the query unless it is already
    there; returns the first error met. *)
Definition ParseForm (req : Request) : Request * option error :=
  match Form req with
  | Some _ => (req, None)
  | None =>
      let '(vals, err) := ParseQuery (RawQuery req) in
      (mkRequest (RawQuery req) (Some vals), err)
  end.

(** [_, ok := req.Form[key]]. *)
Definition hasKey (key : string) (req : Request) : bool :=
  match Form req with
  | Some f => if f !! key is Some _ then true else false
  | None => false
  end.

(** [isPretty] returns whether the HTTP response body should be
    pretty-printed. *)
Definition isPretty (req : Request) : bool * option error :=
  let '(req, err) := ParseForm req in
  match err with
  | Some e => (false, Some e)
  | None => if hasKey "pretty" req then (true, None) else (false, None)
  end.

(** ** The response side *)

Record ResponseWriter := mkResponse {
  header : gmap string string;
  status : option Z;
  body   : string
}.

Definition newResponse : ResponseWriter := mkResponse ∅ None "".

Definition StatusOK : Z := 200.
Definition StatusInternalServerError : Z := 500.

Definition WriteHeader (code : Z) (w : ResponseWriter) : ResponseWriter :=
  match status w with
  | Some _ => w
  | None => mkResponse (header w) (Some code) (body w)
  end.

(** [w.Write(b)]: the first write sends status 200 if none was sent. *)
Definition Write (b : string) (w : ResponseWriter) : ResponseWriter :=
  let w := WriteHeader StatusOK w in
  mkResponse (header w) (status w) (body w +:+ b).

Definition newline : string := String (ascii_of_nat 10) EmptyString.

(** [http.Error(w, msg, code)]. *)
Definition Error (msg : string) (code : Z) (w : ResponseWriter) : ResponseWriter :=
  let h := <["X-Content-Type-Options" := "nosniff"]>
             (<["Content-Type" := "text/plain; charset=utf-8"]> (header w)) in
  Write (msg +:+ newline) (WriteHeader code (mkResponse h (status w) (body w))).

(** ** The collaborators *)

(** [type Statistics interface { GetStatistics() (metrics.Registry, error) }],
    for a registry type [Registry]. *)
Class Statistics (Registry A : Type) := GetStatistics : A -> Registry * option error.

(** A value of the interface type: a value of some type that implements
    it. *)
Record StatisticsValue (Registry : Type) := Dyn {
  dynType  : Type;
  dynStats : Statistics Registry dynType;
  dynValue : dynType
}.
Arguments Dyn {Registry dynType dynStats} dynValue.
Arguments dynType {Registry}.
Arguments dynStats {Registry}.
Arguments dynValue {Registry}.

Definition callGetStatistics {Registry : Type} (v : StatisticsValue Registry)
    : Registry * option error :=
  @GetStatistics Registry (dynType v) (dynStats v) (dynValue v).

(** [encoding/json] on the values the handlers marshal. *)
Class Marshaler (A : Type) := {
  Marshal       : A -> string * option error;
  MarshalIndent : A -> string -> string -> string * option error
}.

(** A handler runs against the response and the process log. *)
Definition Handler : Type := ResponseWriter * list string -> ResponseWriter * list string.

Section Handlers.

Context {Registry TcpServer UdpServer Rfc5424Parser KafkaProducer : Type}.
Context `{!Statistics Registry TcpServer, !Statistics Registry UdpServer,
          !Statistics Registry Rfc5424Parser, !Statistics Registry KafkaProducer}.
Context `{!Marshaler (gmap string Registry), !Marshaler (gmap string string)}.

(** The package-level resource variables, as [main] has set them. *)
Variables (tcpServer : TcpServer) (udpServer : UdpServer)
          (parser : Rfc5424Parser) (kafka : KafkaProducer).

(** The map literal of [ServeStatistics]. *)
Definition resources : list (string * StatisticsValue Registry) :=
  [("tcp", Dyn tcpServer); ("udp", Dyn udpServer); ("parser", Dyn parser);
   ("kafka", Dyn kafka)].

(** The [for k, v := range resources] loop over the entries in the order
    the run time yields them: [inl k] when [k]'s snapshot failed, the filled
    [statistics] map otherwise. *)
Fixpoint rangeResources (order : list (string * StatisticsValue Registry))
    (statistics : gmap string Registry) : string + gmap string Registry :=
  match order with
  | [] => inr statistics
  | (k, v) :: rest =>
      let '(s, err) := callGetStatistics v in
      match err with
      | Some _ => inl k
      | None => rangeResources rest (<[k := s]> statistics)
      end
  end.

(** [ServeStatistics] returns the statistics for the program.  [order] is
    the order in which [range] visits the four entries. *)
Definition ServeStatistics (order : list (string * StatisticsValue Registry))
    (req : Request) : Handler :=
  fun '(w, log) =>
    match rangeResources order ∅ with
    | inl k =>
        (Error ("failed to get " +:+ k +:+ " stats") StatusInternalServerError w,
         (log ++ ["failed to get " +:+ k +:+ " stats"])%list)
    | inr statistics =>
        let '(pretty, _) := isPretty req in
        let '(b, err) :=
          if pretty then MarshalIndent statistics "" "    " else Marshal statistics in
        match err with
        | Some _ =>
            (Error "failed to JSON marshal statistics map" StatusInternalServerError w,
             (log ++ ["failed to JSON marshal statistics map"])%list)
        | None => (Write b w, log)
        end
    end.

(** The diagnostics object. *)
Definition diagnosticsOf (started uptime : string) : gmap string string :=
  <["uptime" := uptime]> (<["started" := started]> ∅).

(** [ServeDiagnostics]; [started] is [startTime.String()] and [uptime] is
    [time.Since(startTime).String()] at the time of the request. *)
Definition ServeDiagnostics (started uptime : string) (req : Request) : Handler :=
  fun '(w, log) =>
    let diagnostics := diagnosticsOf started uptime in
    let '(pretty, _) := isPretty req in
    let '(b, _) :=
      if pretty then MarshalIndent diagnostics "" "    " else Marshal diagnostics in
    (Write b w, log).

(** Whether the snapshot of an entry fails, and the entry of the merged
    object it yields otherwise. *)
Definition snapshotFails (kv : string * StatisticsValue Registry) : Prop :=
  (callGetStatistics kv.2).2 <> None.

Definition snapshotOf (kv : string * StatisticsValue Registry) : string * Registry :=
  (kv.1, (callGetStatistics kv.2).1).

(** The object the four snapshots merge into. *)
Definition merged : gmap string Registry :=
  <["tcp" := (GetStatistics tcpServer).1]>
    (<["udp" := (GetStatistics udpServer).1]>
       (<["parser" := (GetStatistics parser).1]>
          (<["kafka" := (GetStatistics kafka).1]> ∅))).

(** What [ServeStatistics] asks the encoder for: the indented form when
    [isPretty] says so, the compact form otherwise. *)
Definition encoded (req : Request) (statistics : gmap string Registry) : string * option error :=
  if (isPretty req).1 then MarshalIndent statistics "" "    " else Marshal statistics.

End Handlers.

End Admin.

(* ===================================================================== *)
(** * Concrete collaborators for the worked examples *)
(* ===================================================================== *)

Module Sample.

(** A component whose registry is a table of counters and whose snapshot
    succeeds or fails as recorded. *)
Record Component := mkComponent {
  snapshot : gmap string Z;
  failure  : option error
}.

#[global] Instance component_statistics : Admin.Statistics (gmap string Z) Component :=
  fun c => (snapshot c, failure c).

Fixpoint joinWith (sep : string) (l : list string) : string :=
  match l with
  | [] => EmptyString
  | [x] => x
  | x :: rest => x +:+ sep +:+ joinWith sep rest
  end.

(** An encoder that lists the keys of the object, on one line or one key a
    line; enough to tell the two layouts apart. *)
Definition encodeKeys {A : Type} (m : gmap string A) : string :=
  "{" +:+ joinWith "," (map_to_list m).*1 +:+ "}".

Definition encodeKeysIndent {A : Type} (m : gmap string A) (prefix indent : string) : string :=
  "{" +:+ Admin.newline +:+ prefix +:+ indent
      +:+ joinWith ("," +:+ Admin.newline +:+ prefix +:+ indent) (map_to_list m).*1
      +:+ Admin.newline +:+ prefix +:+ "}".

#[global] Instance marshal_keys {A : Type} : Admin.Marshaler (gmap string A) := {|
  Admin.Marshal m := (encodeKeys m, None);
  Admin.MarshalIndent m prefix indent := (encodeKeysIndent m prefix indent, None)
|}.

Definition healthy : Component := mkComponent {[ "messages" := 3 ]} None.
Definition unavailable : Component := mkComponent ∅ (Some "registry unavailable").

(** The default configuration, and the one with [-parse=false]. *)
Definition defaults : Flags.Config := Flags.vars Flags.init.
Definition parseDisabled : Flags.Config := Flags.set_pEnabled false defaults.

(** A machine on which every start-up call succeeds. *)
Definition allGood : Main.Env :=
  Main.mkEnv ("collector-1", None) 4242 8 (fun _ => Main.ServesForever)
             (fun _ => None) (fun _ => None) (fun _ => None).


(** A few messages through the pipeline. *)
Definition traffic : list Pipeline.Event :=
  [Pipeline.TcpMessage "<34>1 2021-03-01T12:00:00Z host1 app1 123 ID47 - message body";
   Pipeline.ParserTurn; Pipeline.UdpMessage "not a syslog line"; Pipeline.ProducerTurn;
   Pipeline.ParserTurn; Pipeline.ProducerTurn].

(** An order in which [range] may visit the four resources when the UDP
    listener cannot produce its snapshot. *)
Definition visit : list (string * Admin.StatisticsValue (gmap string Z)) :=
  [("udp", Admin.Dyn unavailable); ("tcp", Admin.Dyn healthy);
   ("parser", Admin.Dyn healthy); ("kafka", Admin.Dyn healthy)].

(** A request that asks for indentation and carries a setting that does not
    decode. *)
Definition malformed : Admin.Request := Admin.mkRequest "pretty&a=%zz" None.

(** Machines on which one start-up call fails. *)
Definition noHostname : Main.Env :=
  Main.mkEnv ("", Some "hostname: no such file or directory") 4242 8
             (fun _ => Main.ServesForever) (fun _ => None) (fun _ => None) (fun _ => None).

Definition tcpTaken : Main.Env :=
  Main.mkEnv ("collector-1", None) 4242 8 (fun _ => Main.ServesForever) (fun _ => None)
             (fun _ => Some "listen tcp 127.0.0.1:514: bind: address already in use")
             (fun _ => None).

End Sample.

(** How often a character occurs in a string. *)
Fixpoint countChar (c : ascii) (s : string) : nat :=
  match s with
  | EmptyString => O
  | String a rest => if Ascii.eqb a c then S (countChar c rest) else countChar c rest
  end.



(* ===================================================================== *)
(** * Properties: configuration defaults *)
(* ===================================================================== *)

Section FlagProperties.
Import Flags.

Lemma init_formal_names :
  map Name (formal init)
  = ["admin"; "tcp"; "udp"; "broker"; "topic"; "batch"; "maxbuff"; "maxbytes"; "parse"; "chancap"].
Proof. reflexivity. Qed.

(** Arguments that do not start with a dash leave every variable alone. *)
Lemma parseArgs_no_flags (fs : list Flag) (c : Config) :
  parseArgs fs c [] = Parsed c [].
Proof. reflexivity. Qed.

(** C6: when no command-line flags are supplied, every configuration
    option holds the default of the table: admin bind address
    localhost:8080, TCP and UDP bind address localhost:514, broker list
    localhost:9092, topic logs, batch size 10, maximal buffer time 1000 ms,
    maximal buffer bytes 524288, parsing enabled, queue capacity 0. *)
Theorem defaults_without_flags :
  exists c, Parse [] = Parsed c [] /\
    adminIface c = "localhost:8080" /\
    tcpIface c = "localhost:514" /\
    udpIface c = "localhost:514" /\
    kBrokers c = "localhost:9092" /\
    kTopic c = "logs" /\
    kBatch c = 10 /\
    kBufferTime c = 1000 /\
    kBufferBytes c = 524288 /\
    pEnabled c = true /\
    cCapacity c = 0.
Proof.
  exists (vars init). unfold Parse.
  rewrite parseArgs_no_flags.
  split; [reflexivity|].
  unfold init, StringVar, IntVar, BoolVar; cbn [vars formal].
  repeat split.
Qed.

Example flags_override_defaults :
  configOf ["-batch"; "3"; "--parse=false"; "-topic=syslog"; "rest"]
  = Some (mkConfig "localhost:8080" "localhost:514" "localhost:514" "localhost:9092"
            3 "syslog" 1000 524288 false 0).
Proof. reflexivity. Qed.

End FlagProperties.

(* ===================================================================== *)
(** * Properties: the header parser *)
(* ===================================================================== *)

Section ParserProperties.
Import Rfc5424.

Lemma bindR_inr {A B : Type} (r : Result A) (k : A -> Result B) (b : B) :
  bindR r k = inr b -> exists a, r = inr a /\ k a = inr b.
Proof. destruct r as [e|a]; simpl; [discriminate | eauto]. Qed.

(** A parsed header carries the priority it was given, split by 8. *)
Lemma parseHeader_pri (p : Z) (s : string) (m : Message) :
  parseHeader p s = inr m ->
  priority m = p /\ facility m = p / 8 /\ severity m = p mod 8.
Proof.
  unfold parseHeader. intros H.
  repeat (apply bindR_inr in H; destruct H as [[? ?] [_ H]]).
  apply bindR_inr in H. destruct H as [? [_ H]].
  inversion H; subst; simpl. auto.
Qed.

(** C7: a message whose PRI value is [p] is decomposed into facility
    [p / 8] (integer division) and severity [p mod 8]; and the line
    [<34>1 2021-03-01T12:00:00Z host1 app1 123 ID47 - message body] yields
    facility 4, severity 2, hostname host1, app name app1, process id 123,
    message id ID47, no structured data and the body [message body]. *)
Theorem pri_decomposition :
  (forall (raw : string) (m : Message), Parse raw = inr m ->
     exists (p : Z) (rest : string),
       parsePri raw = Some (p, rest) /\
       facility m = p / 8 /\ severity m = p mod 8 /\
       p = 8 * facility m + severity m /\ 0 <= severity m < 8)
  /\ Parse exampleLine
     = inr (mkMessage 34 4 2 1 (Some "2021-03-01T12:00:00Z") (Some "host1") (Some "app1")
              (Some "123") (Some "ID47") None "message body").
Proof.
  split.
  - intros raw m H. unfold Parse in H.
    apply bindR_inr in H. destruct H as [[p rest] [Hpri Hhdr]].
    exists p, rest.
    destruct (parsePri raw) as [[p' rest']|] eqn:E; simpl in Hpri; [|discriminate].
    inversion Hpri; subst p' rest'.
    destruct (parseHeader_pri _ _ _ Hhdr) as (_ & Hf & Hs).
    rewrite Hf, Hs. repeat split.
    + apply Z.div_mod. lia.
    + apply Z.mod_pos_bound. lia.
    + apply Z.mod_pos_bound. lia.
  - vm_compute. reflexivity.
Qed.

Lemma pri_decomposition_witness :
  exists (p : Z) (rest : string),
    parsePri exampleLine = Some (p, rest) /\
    facility (mkMessage 34 4 2 1 (Some "2021-03-01T12:00:00Z") (Some "host1") (Some "app1")
                (Some "123") (Some "ID47") None "message body") = p / 8 /\
    severity (mkMessage 34 4 2 1 (Some "2021-03-01T12:00:00Z") (Some "host1") (Some "app1")
                (Some "123") (Some "ID47") None "message body") = p mod 8 /\
    p = 8 * 4 + 2 /\ 0 <= 2 < 8.
Proof.
  apply (proj1 pri_decomposition exampleLine). vm_compute. reflexivity.
Defined.

Example structured_data_example :
  structuredData <$> (match Parse ("<165>1 - h - - - [ex@1 a=" +:+ String (ascii_of_nat 34) "x\]y"
                               +:+ String (ascii_of_nat 34) "][z] hi") with
                      | inr m => Some m | inl _ => None end)
  = Some (Some [mkSDElement "ex@1" [("a", "x]y")]; mkSDElement "z" []]).
Proof. vm_compute. reflexivity. Qed.

Example malformed_pri_example : Parse "34>1 - - - - - -" = inl MalformedPri.
Proof. reflexivity. Qed.

Example unterminated_sd_example :
  Parse "<34>1 - - - - - [id a" = inl UnterminatedStructuredData.
Proof. vm_compute. reflexivity. Qed.

Lemma parseOne_spec (p : Rfc5424Parser) (raw : string) :
  outputOf raw (parseOne p raw).2 /\
  processed (parseOne p raw).1 = processed p + 1 /\
  parseErrors (parseOne p raw).1
    = parseErrors p + (if isPassthrough (parseOne p raw).2 then 1 else 0) /\
  parseSuccess (parseOne p raw).1
    = parseSuccess p + (if isPassthrough (parseOne p raw).2 then 0 else 1).
Proof.
  unfold parseOne. destruct (Parse raw) as [e|m] eqn:E; simpl; repeat split; auto; lia.
Qed.

(** C4: the parser is total: every raw message yields exactly one parsed
    message, a structured record when the decomposition succeeds and
    otherwise the original message unchanged, tagged with the reason; none
    is dropped; every failure adds one to the parse-error counter; a
    malformed message is an ordinary result, never a fatal condition. *)
Theorem parser_total (p : Rfc5424Parser) (raws : list string) :
  length (StreamingParse p raws).2 = length raws /\
  Forall2 outputOf raws (StreamingParse p raws).2 /\
  processed (StreamingParse p raws).1 = processed p + Z.of_nat (length raws) /\
  parseErrors (StreamingParse p raws).1
    = parseErrors p + countPassthrough (StreamingParse p raws).2 /\
  parseSuccess (StreamingParse p raws).1
    = parseSuccess p + countStructured (StreamingParse p raws).2.
Proof.
  revert p. induction raws as [|raw rest IH]; intros p.
  - simpl. unfold countPassthrough, countStructured. simpl.
    repeat split; auto; lia.
  - simpl.
    pose proof (parseOne_spec p raw) as (Ho & Hp & He & Hs).
    destruct (parseOne p raw) as [p1 o] eqn:E1. simpl in Ho, Hp, He, Hs.
    specialize (IH p1). destruct (StreamingParse p1 rest) as [p2 outs] eqn:E2.
    simpl in IH. destruct IH as (Hlen & Hall & Hproc & Herr & Hsucc).
    simpl. unfold countPassthrough, countStructured in *.
    rewrite !filter_cons.
    repeat split.
    + congruence.
    + constructor; assumption.
    + lia.
    + rewrite Herr, He. destruct (isPassthrough o); simpl.
      * destruct (decide (true = true)); [simpl; lia | congruence].
      * destruct (decide (false = true)); [congruence | simpl; lia].
    + rewrite Hsucc, Hs. destruct (isPassthrough o); simpl.
      * destruct (decide (true = false)); [congruence | simpl; lia].
      * destruct (decide (false = false)); [simpl; lia | congruence].
Qed.

End ParserProperties.

(* ===================================================================== *)
(** * Properties: the administrative handlers *)
(* ===================================================================== *)

Section AdminProperties.
Import Admin.

Context {Registry TcpServer UdpServer Rfc5424Parser KafkaProducer : Type}.
Context `{!Statistics Registry TcpServer, !Statistics Registry UdpServer,
          !Statistics Registry Rfc5424Parser, !Statistics Registry KafkaProducer}.
Context `{!Marshaler (gmap string Registry), !Marshaler (gmap string string)}.

Variables (tcpServer : TcpServer) (udpServer : UdpServer)
          (parser : Rfc5424Parser) (kafka : KafkaProducer).

Abbreviation resources := (resources tcpServer udpServer parser kafka).
Abbreviation merged := (merged tcpServer udpServer parser kafka).

(** The first failing entry stops the loop. *)
Lemma rangeResources_fail (order : list (string * StatisticsValue Registry))
    (acc : gmap string Registry) :
  Exists snapshotFails order ->
  exists kv, kv ∈ order /\ snapshotFails kv /\ rangeResources order acc = inl kv.1.
Proof.
  revert acc. induction order as [|[k v] rest IH]; intros acc Hex.
  - inversion Hex.
  - simpl. destruct (callGetStatistics v) as [s err] eqn:E.
    destruct err as [e|].
    + exists (k, v). split; [left|]. unfold snapshotFails; simpl. rewrite E; simpl.
      split; [discriminate | reflexivity].
    + inversion Hex as [? ? Hhd | ? ? Htl]; subst.
      * unfold snapshotFails in Hhd; simpl in Hhd. rewrite E in Hhd. simpl in Hhd. congruence.
      * destruct (IH (<[k:=s]> acc) Htl) as (kv & Hin & Hf & Hr).
        exists kv. split; [right; exact Hin | auto].
Qed.

(** Without a failure the loop stores every snapshot under its key. *)
Lemma rangeResources_ok (order : list (string * StatisticsValue Registry))
    (acc : gmap string Registry) :
  Forall (fun kv => ~ snapshotFails kv) order ->
  rangeResources order acc
  = inr (fold_left (fun m kv => <[kv.1 := kv.2]> m) (map snapshotOf order) acc).
Proof.
  revert acc. induction order as [|[k v] rest IH]; intros acc Hall.
  - reflexivity.
  - inversion Hall as [|? ? Hhd Htl]; subst. simpl.
    unfold snapshotFails in Hhd; simpl in Hhd.
    destruct (callGetStatistics v) as [s err] eqn:E. simpl in Hhd.
    destruct err as [e|]; [exfalso; apply Hhd; discriminate|].
    rewrite (IH _ Htl). reflexivity.
Qed.

Lemma fold_left_insert_list_to_map (l : list (string * Registry)) :
  fold_left (fun m kv => <[kv.1 := kv.2]> m) l (∅ : gmap string Registry)
  = list_to_map (rev l).
Proof.
  rewrite <- fold_left_rev_right.
  induction (rev l) as [|[k s] l' IH]; simpl; [reflexivity|].
  rewrite <- IH. reflexivity.
Qed.

(** The merged map does not depend on the order of the visit. *)
Lemma merged_statistics (order : list (string * StatisticsValue Registry)) :
  order ≡ₚ resources ->
  fold_left (fun m kv => <[kv.1 := kv.2]> m) (map snapshotOf order) (∅ : gmap string Registry)
  = <["tcp" := (GetStatistics tcpServer).1]>
      (<["udp" := (GetStatistics udpServer).1]>
         (<["parser" := (GetStatistics parser).1]>
            (<["kafka" := (GetStatistics kafka).1]> ∅))).
Proof.
  intros Hperm. rewrite fold_left_insert_list_to_map.
  assert (Hp : rev (map snapshotOf order) ≡ₚ map snapshotOf resources).
  { etrans; [symmetry; apply Permutation_rev|].
    apply Permutation_map. exact Hperm. }
  assert (Hnd : NoDup (rev (map snapshotOf order)).*1).
  { rewrite Hp. simpl. compute_done. }
  rewrite (list_to_map_proper _ _ Hnd Hp). reflexivity.
Qed.

Lemma Exists_perm {A : Type} (P : A -> Prop) (l1 l2 : list A) :
  l1 ≡ₚ l2 -> Exists P l1 -> Exists P l2.
Proof. intros Hp. rewrite !Exists_exists. setoid_rewrite Hp. auto. Qed.

Lemma Forall_perm {A : Type} (P : A -> Prop) (l1 l2 : list A) :
  l1 ≡ₚ l2 -> Forall P l1 -> Forall P l2.
Proof. intros Hp. rewrite !Forall_forall. setoid_rewrite Hp. auto. Qed.

Lemma status_Error (msg : string) (code : Z) :
  status (Error msg code newResponse) = Some code /\
  body (Error msg code newResponse) = msg +:+ newline.
Proof. split; reflexivity. Qed.

Lemma status_Write (b : string) :
  status (Write b newResponse) = Some StatusOK /\ body (Write b newResponse) = b.
Proof. split; reflexivity. Qed.

(** C2: a GET /statistics request merges the snapshots of the four
    components (tcp, udp, parser, kafka) into one object keyed by component
    name, whatever the order the map is ranged over; and if the
    [GetStatistics] call of any one component returns an error, the request
    ends with status 500 and the body is the short failure text: no
    statistics are written. *)
Theorem statistics_all_or_nothing
    (order : list (string * StatisticsValue Registry)) (req : Request) (log : list string) :
  order ≡ₚ resources ->
  (Exists snapshotFails resources ->
     exists kv, kv ∈ resources /\ snapshotFails kv /\
       ServeStatistics order req (newResponse, log)
       = (Error ("failed to get " +:+ kv.1 +:+ " stats") StatusInternalServerError newResponse,
          (log ++ ["failed to get " +:+ kv.1 +:+ " stats"])%list) /\
       status (ServeStatistics order req (newResponse, log)).1 = Some 500 /\
       body (ServeStatistics order req (newResponse, log)).1
       = ("failed to get " +:+ kv.1 +:+ " stats") +:+ newline)
  /\
  (Forall (fun kv => ~ snapshotFails kv) resources ->
     rangeResources order ∅ = inr merged /\
     forall b : string,
       (if (isPretty req).1 then MarshalIndent merged "" "    " else Marshal merged) = (b, None) ->
       ServeStatistics order req (newResponse, log) = (Write b newResponse, log) /\
       status (ServeStatistics order req (newResponse, log)).1 = Some 200 /\
       body (ServeStatistics order req (newResponse, log)).1 = b).
Proof.
  intros Hperm. split.
  - intros Hex.
    assert (Hex' : Exists snapshotFails order) by (eapply Exists_perm; [symmetry|]; eauto).
    destruct (rangeResources_fail order ∅ Hex') as (kv & Hin & Hf & Hr).
    exists kv. split; [rewrite <- Hperm; exact Hin|]. split; [exact Hf|].
    assert (Hs : ServeStatistics order req (newResponse, log)
                 = (Error ("failed to get " +:+ kv.1 +:+ " stats") StatusInternalServerError
                          newResponse,
                    (log ++ ["failed to get " +:+ kv.1 +:+ " stats"])%list)).
    { unfold ServeStatistics. rewrite Hr. reflexivity. }
    rewrite Hs. split; [reflexivity|]. simpl fst.
    destruct (status_Error ("failed to get " +:+ kv.1 +:+ " stats") StatusInternalServerError)
      as [H1 H2].
    split; [exact H1 | exact H2].
  - intros Hall.
    assert (Hall' : Forall (fun kv => ~ snapshotFails kv) order)
      by (eapply Forall_perm; [symmetry|]; eauto).
    assert (Hr : rangeResources order ∅ = inr merged).
    { rewrite (rangeResources_ok order ∅ Hall'). f_equal. apply merged_statistics, Hperm. }
    split; [exact Hr|]. intros b Hb.
    assert (Hs : ServeStatistics order req (newResponse, log) = (Write b newResponse, log)).
    { unfold ServeStatistics. rewrite Hr.
      destruct (isPretty req) as [pretty e]. simpl in Hb. rewrite Hb. reflexivity. }
    rewrite Hs. split; [reflexivity|]. simpl fst.
    destruct (status_Write b) as [H1 H2]. split; [exact H1 | exact H2].
Qed.

Lemma isPretty_true_iff (req : Request) :
  (isPretty req).1 = true
  <-> (ParseForm req).2 = None /\ hasKey "pretty" (ParseForm req).1 = true.
Proof.
  unfold isPretty. destruct (ParseForm req) as [req' err]. simpl.
  destruct err as [e|]; simpl.
  - split; [discriminate | intros [? _]; discriminate].
  - destruct (hasKey "pretty" req'); simpl; split; auto. intros [_ ?]; assumption.
Qed.

Lemma isPretty_on_error (req : Request) (e : error) :
  (ParseForm req).2 = Some e -> isPretty req = (false, Some e).
Proof.
  unfold isPretty. destruct (ParseForm req) as [req' err]. simpl.
  intros ->. reflexivity.
Qed.

Lemma ServeDiagnostics_unfold (started uptime : string) (req : Request) (log : list string) :
  ServeDiagnostics started uptime req (newResponse, log)
  = (Write (if (isPretty req).1
            then (MarshalIndent (diagnosticsOf started uptime) "" "    ").1
            else (Marshal (diagnosticsOf started uptime)).1) newResponse, log).
Proof.
  unfold ServeDiagnostics, diagnosticsOf.
  destruct (isPretty req) as [pretty e]. simpl.
  destruct pretty.
  - destruct (MarshalIndent _ "" "    ") as [b err]. reflexivity.
  - destruct (Marshal _) as [b err]. reflexivity.
Qed.

(** C8, as the code has it: [isPretty] returns true exactly when the form
    parses without error and the parsed form has the key [pretty], whatever
    its value; both handlers write the indented encoding in that case and
    the compact one in every other. *)
Theorem pretty_iff_parsed_form_has_key (req : Request) :
  ((isPretty req).1 = true
   <-> (ParseForm req).2 = None /\ hasKey "pretty" (ParseForm req).1 = true)
  /\ (forall (started uptime : string) (log : list string),
        ServeDiagnostics started uptime req (newResponse, log)
        = (Write (if (isPretty req).1
                  then (MarshalIndent (diagnosticsOf started uptime) "" "    ").1
                  else (Marshal (diagnosticsOf started uptime)).1) newResponse, log))
  /\ (forall (order : list (string * StatisticsValue Registry)) (log : list string)
             (stats : gmap string Registry) (b : string),
        rangeResources order ∅ = inr stats ->
        (if (isPretty req).1 then MarshalIndent stats "" "    " else Marshal stats) = (b, None) ->
        ServeStatistics order req (newResponse, log) = (Write b newResponse, log)).
Proof.
  split; [apply isPretty_true_iff|]. split.
  - intros. apply ServeDiagnostics_unfold.
  - intros order log stats b Hr Hb. unfold ServeStatistics. rewrite Hr.
    destruct (isPretty req) as [pretty e]. simpl in Hb. rewrite Hb. reflexivity.
Qed.

(** C10: an error from parsing the request's form is dropped by both
    handlers, which then write the compact encoding; [ServeDiagnostics] also
    drops the encoder's error, so its response has status 200 for every
    request. *)
Theorem diagnostics_never_fails (started uptime : string) (req : Request) (log : list string) :
  status (ServeDiagnostics started uptime req (newResponse, log)).1 = Some StatusOK /\
  (ServeDiagnostics started uptime req (newResponse, log)).2 = log /\
  (forall e : error, (ParseForm req).2 = Some e ->
     isPretty req = (false, Some e) /\
     ServeDiagnostics started uptime req (newResponse, log)
     = (Write (Marshal (diagnosticsOf started uptime)).1 newResponse, log) /\
     forall (order : list (string * StatisticsValue Registry)) (stats : gmap string Registry),
       rangeResources order ∅ = inr stats ->
       ServeStatistics order req (newResponse, log)
       = match (Marshal stats).2 with
         | None => (Write (Marshal stats).1 newResponse, log)
         | Some _ =>
             (Error "failed to JSON marshal statistics map" StatusInternalServerError newResponse,
              (log ++ ["failed to JSON marshal statistics map"])%list)
         end).
Proof.
  rewrite ServeDiagnostics_unfold. simpl fst. simpl snd.
  split; [apply status_Write|]. split; [reflexivity|].
  intros e He. pose proof (isPretty_on_error req e He) as Hp.
  split; [exact Hp|]. rewrite Hp. simpl. split; [reflexivity|].
  intros order stats Hr. unfold ServeStatistics. rewrite Hr, Hp.
  destruct (Marshal stats) as [b err]. simpl. destruct err; reflexivity.
Qed.

End AdminProperties.

(* ===================================================================== *)
(** * Properties: start-up and exit status *)
(* ===================================================================== *)

Section MainProperties.
Import Flags Main.

Variables (cfg : Config) (env : Env).

Lemma last_snoc_diag (l : list Output) (o : Output) :
  isDiagnostic o = true ->
  match last (l ++ [o]) with Some x => isDiagnostic x | None => false end = true.
Proof. intros H. rewrite last_snoc. exact H. Qed.

Lemma inv_start : inv cfg env start.
Proof.
  unfold inv, start; simpl.
  repeat split; intros; try lia; try congruence; try discriminate.
Qed.

Ltac exit_case :=
  unfold inv; simpl; split;
  [ unfold expectedExit;
    repeat match goal with
           | H : _ = false |- _ => rewrite H
           | H : _ = true |- _ => rewrite H
           end;
    simpl; rewrite ?orb_true_r; reflexivity
  | intros Hc; first [ discriminate Hc
                     | unfold lastIsDiagnostic; simpl; apply last_snoc_diag; reflexivity ] ].

Ltac run_case :=
  unfold inv; simpl;
  repeat split; intros; try lia; try congruence; try discriminate; auto.

Lemma inv_mainStep (p : Proc) : running p = true -> inv cfg env p -> inv cfg env (mainStep cfg env p).
Proof.
  unfold running. intros Hrun Hinv. unfold inv in Hinv.
  destruct p as [pc0 ad o ex ch raw prod par feed kaf tcp udp hs].
  simpl in *. destruct ex as [c|]; [discriminate|].
  destruct Hinv as (Hpc & Hch & Hns & Hh & Hw & Hsp & Hfin & Hk & Ht & Hu).
  unfold mainStep; simpl.
  destruct pc0 as [|[|[|[|[|[|[|n]]]]]]]; simpl.
  - (* os.Hostname *)
    unfold stHostname. destruct (Hostname env) as [h err] eqn:E.
    assert (Hf : hostnameFails env = isSome err) by (unfold hostnameFails; rewrite E; reflexivity).
    destruct err as [e|]; simpl in Hf.
    + exit_case.
    + run_case.
  - run_case.
  - (* channels and parser *)
    unfold stWire. specialize (Hh ltac:(lia)). specialize (Hch ltac:(lia)). subst ch.
    destruct (cCapacity cfg <? 0) eqn:Ecap.
    + exit_case.
    + destruct (pEnabled cfg) eqn:Ep; run_case; rewrite Ep; reflexivity.
  - (* routes and the admin goroutine *)
    unfold stAdmin. run_case.
  - (* Kafka *)
    unfold stKafka. simpl.
    specialize (Hh ltac:(lia)). destruct (Hw ltac:(lia)) as (Hcap & Hraw & Hprod).
    subst prod.
    assert (Hf : kafkaFails cfg env = isSome (NewKafkaProducer env (producerOf cfg)))
      by reflexivity.
    change (mkKafka _ _ _ _ _) with (producerOf cfg).
    destruct (NewKafkaProducer env (producerOf cfg)) as [e|]; simpl in Hf.
    + exit_case.
    + run_case.
  - (* TCP *)
    unfold stTcp. simpl.
    specialize (Hh ltac:(lia)). destruct (Hw ltac:(lia)) as (Hcap & Hraw & Hprod).
    specialize (Hk ltac:(lia)). subst raw.
    assert (Hf : tcpFails cfg env = isSome (TcpStartChan env (mkServer (tcpIface cfg) 0)))
      by reflexivity.
    destruct (TcpStartChan env (mkServer (tcpIface cfg) 0)) as [e|]; simpl in Hf.
    + exit_case.
    + run_case.
  - (* UDP *)
    unfold stUdp. simpl.
    specialize (Hh ltac:(lia)). destruct (Hw ltac:(lia)) as (Hcap & Hraw & Hprod).
    specialize (Hk ltac:(lia)). specialize (Ht ltac:(lia)). subst raw.
    assert (Hf : udpFails cfg env = isSome (UdpStartChan env (mkServer (udpIface cfg) 0)))
      by reflexivity.
    destruct (UdpStartChan env (mkServer (udpIface cfg) 0)) as [e|]; simpl in Hf.
    + exit_case.
    + run_case.
  - (* select {} *)
    destruct n; simpl; run_case.
Qed.

Lemma inv_adminStep (p : Proc) : running p = true -> inv cfg env p -> inv cfg env (adminStep cfg env p).
Proof.
  unfold running. intros Hrun Hinv.
  unfold adminStep. destruct (admin p) eqn:Had; try exact Hinv.
  unfold inv in Hinv.
  destruct p as [pc0 ad o ex ch raw prod par feed kaf tcp udp hs].
  simpl in *. subst ad. destruct ex as [c|]; [discriminate|].
  destruct Hinv as (Hpc & Hch & Hns & Hh & Hw & Hsp & Hfin & Hk & Ht & Hu).
  assert (Hpc4 : (4 <= pc0)%nat).
  { destruct (le_lt_dec 4 pc0) as [|Hlt]; [assumption|].
    specialize (Hns ltac:(lia)). discriminate Hns. }
  specialize (Hh ltac:(lia)). destruct (Hw ltac:(lia)) as (Hcap & Hraw & Hprod).
  assert (Hf : adminFails cfg env
               = match ListenAndServe env (adminIface cfg) with
                 | Returns (Some _) => true | _ => false end) by reflexivity.
  destruct (ListenAndServe env (adminIface cfg)) as [|[e|]].
  - unfold inv; simpl; repeat split; auto.
  - exit_case.
  - run_case.
Qed.

Lemma inv_step (p : Proc) (t : Tid) : inv cfg env p -> inv cfg env (step cfg env p t).
Proof.
  intros Hinv. unfold step. destruct (running p) eqn:Hrun; [|exact Hinv].
  destruct t; [apply inv_mainStep | apply inv_adminStep]; assumption.
Qed.

Lemma inv_fold (sched : list Tid) (p : Proc) : inv cfg env p -> inv cfg env (fold_left (step cfg env) sched p).
Proof.
  revert p. induction sched as [|t rest IH]; intros p Hinv; simpl; [exact Hinv|].
  apply IH, inv_step, Hinv.
Qed.

Lemma inv_run (sched : list Tid) : inv cfg env (run cfg env sched).
Proof. apply inv_fold, inv_start. Qed.

Lemma fold_exited (sched : list Tid) (p : Proc) :
  running p = false -> fold_left (step cfg env) sched p = p.
Proof.
  intros Hr. induction sched as [|t rest IH]; simpl; [reflexivity|].
  unfold step at 2. rewrite Hr. exact IH.
Qed.

Lemma run_snoc (sched : list Tid) (t : Tid) :
  run cfg env (sched ++ [t]) = step cfg env (run cfg env sched) t.
Proof. unfold run. rewrite fold_left_app. reflexivity. Qed.









End MainProperties.

(* ===================================================================== *)
(** * Properties: the wiring of the channels *)
(* ===================================================================== *)

Section WiringProperties.
Import Flags Main.

Variables (cfg : Config) (env : Env).

Lemma wired_start : wired cfg start.
Proof.
  unfold wired, start; simpl.
  repeat split; intros; try lia; try congruence; try discriminate.
Qed.

Ltac feed_bounds :=
  repeat match goal with
         | H : (?a <= ?b)%nat -> _ |- _ =>
             first [ specialize (H ltac:(lia)) | clear H ]
         | H : None <> Some _ -> _ |- _ => specialize (H ltac:(discriminate))
         | H : _ /\ _ |- _ => destruct H
         end.

Ltac wired_case :=
  unfold wired; simpl;
  repeat split; intros; simplify_eq/=; try lia; try congruence; auto.

Lemma wired_mainStep (p : Proc) : running p = true -> wired cfg p -> wired cfg (mainStep cfg env p).
Proof.
  unfold running. intros Hrun Hw. unfold wired in Hw.
  destruct p as [pc0 ad o ex ch raw prod par feed kaf tcp udp hs].
  simpl in *. destruct ex as [c|]; [discriminate|].
  destruct Hw as (H2 & H4 & H5 & H6 & H3 & Hk & Ht & Hu & Hx).
  unfold mainStep; simpl.
  destruct pc0 as [|[|[|[|[|[|[|n]]]]]]]; simpl; feed_bounds.
  - unfold stHostname. destruct (Hostname env) as [h [e|]]; wired_case.
  - wired_case.
  - unfold stWire. subst ch feed.
    destruct (cCapacity cfg <? 0); [wired_case|].
    destruct (pEnabled cfg) eqn:Ep; wired_case; unfold feedOf; rewrite Ep; reflexivity.
  - unfold stAdmin. wired_case.
  - unfold stKafka. simpl.
    subst prod. change (mkKafka _ _ _ _ _) with (producerOf cfg).
    destruct (NewKafkaProducer env (producerOf cfg)) as [e|]; wired_case.
  - unfold stTcp. simpl. subst raw.
    destruct (TcpStartChan env _) as [e|]; wired_case.
  - unfold stUdp. simpl. subst raw.
    destruct (UdpStartChan env _) as [e|]; wired_case.
  - destruct n; simpl; wired_case.
Qed.

Lemma wired_adminStep (p : Proc) :
  running p = true -> wired cfg p -> wired cfg (adminStep cfg env p).
Proof.
  unfold running. intros Hrun Hw. unfold adminStep. destruct (admin p) eqn:Had; try exact Hw.
  destruct p as [pc0 ad o ex ch raw prod par feed kaf tcp udp hs].
  simpl in *. destruct ex as [c|]; [discriminate|].
  destruct (ListenAndServe env (adminIface cfg)) as [|[e|]]; simpl; try exact Hw.
  unfold wired in *; simpl in *.
  destruct Hw as (H2 & H4 & H5 & H6 & H3 & Hk & Ht & Hu & Hx).
  repeat split; intros; auto; try discriminate.
  all: try (destruct (H2 ltac:(assumption)); assumption).
  all: destruct (H3 ltac:(assumption) ltac:(discriminate)) as (?&?&?&?); assumption.
Qed.

Lemma wired_step (p : Proc) (t : Tid) : wired cfg p -> wired cfg (step cfg env p t).
Proof.
  intros Hw. unfold step. destruct (running p) eqn:Hrun; [|exact Hw].
  destruct t; [apply wired_mainStep | apply wired_adminStep]; assumption.
Qed.

Lemma wired_run (sched : list Tid) : wired cfg (run cfg env sched).
Proof.
  unfold run. generalize wired_start. generalize start.
  induction sched as [|t rest IH]; intros p Hw; simpl; [exact Hw|].
  apply IH, wired_step, Hw.
Qed.

(** The wiring [main] hands to the listeners, the parser and the
    producer. *)
Lemma wiringOf_run (sched : list Tid) (w : Pipeline.Wiring) :
  Pipeline.wiringOf (run cfg env sched) = Some w ->
  w = Pipeline.mkWiring 0 0 (feedOf cfg) (msgChan (producerOf cfg)) /\
  parser (run cfg env sched) = Some Rfc5424.NewRfc5424Parser.
Proof.
  pose proof (wired_run sched) as Hw. unfold Pipeline.wiringOf.
  destruct (run cfg env sched) as [pc0 ad o ex ch raw prod par feed kaf tcp udp hs].
  unfold wired in Hw; simpl in *.
  destruct Hw as (H2 & H4 & H5 & H6 & H3 & Hk & Ht & Hu & Hx).
  destruct tcp as [t|]; [|discriminate]. destruct udp as [u|]; [|discriminate].
  destruct kaf as [k|]; [|discriminate].
  intros Heq. inversion Heq; subst w; clear Heq.
  assert (Hpc : (7 <= pc0)%nat).
  { destruct (le_lt_dec 7 pc0); [assumption|]. specialize (H6 ltac:(lia)). discriminate. }
  assert (Hex : ex <> Some 2).
  { intros ->. specialize (Hx eq_refl). lia. }
  destruct (H3 ltac:(lia) Hex) as (Hraw & Hprod & Hfeed & Hpar).
  rewrite (Ht t eq_refl), (Hu u eq_refl), (Hk k eq_refl), Hfeed. split; [reflexivity | exact Hpar].
Qed.

(** The batch size reaches the log and nothing else. *)
Lemma silence_step (n : Z) (p1 p2 : Proc) (t : Tid) :
  silence p1 = silence p2 ->
  silence (step (set_kBatch n cfg) env p1 t) = silence (step cfg env p2 t).
Proof.
  destruct p1 as [pc1 ad1 o1 ex1 ch1 raw1 prod1 par1 feed1 kaf1 tcp1 udp1 hs1].
  destruct p2 as [pc2 ad2 o2 ex2 ch2 raw2 prod2 par2 feed2 kaf2 tcp2 udp2 hs2].
  unfold silence; simpl. intros Heq. inversion Heq; subst; clear Heq.
  unfold step, running; simpl. destruct ex2 as [c|]; [reflexivity|].
  destruct t.
  - unfold mainStep; simpl.
    destruct pc2 as [|[|[|[|[|[|[|k]]]]]]]; simpl.
    + unfold stHostname. destruct (Hostname env) as [h [e|]]; reflexivity.
    + reflexivity.
    + unfold stWire; simpl. destruct (cCapacity cfg <? 0); [reflexivity|].
      destruct (pEnabled cfg); reflexivity.
    + reflexivity.
    + unfold stKafka; simpl. destruct (NewKafkaProducer env _); reflexivity.
    + unfold stTcp; simpl. destruct (TcpStartChan env _); reflexivity.
    + unfold stUdp; simpl. destruct (UdpStartChan env _); reflexivity.
    + destruct k; reflexivity.
  - unfold adminStep; simpl. destruct ad2; try reflexivity.
    destruct (ListenAndServe env (adminIface cfg)) as [|[e|]]; reflexivity.
Qed.

Lemma silence_run (n : Z) (sched : list Tid) :
  silence (run (set_kBatch n cfg) env sched) = silence (run cfg env sched).
Proof.
  unfold run. assert (H0 : silence start = silence start) by reflexivity.
  revert H0. generalize start at 1 3. generalize start.
  induction sched as [|t rest IH]; intros p2 p1 Heq; simpl; [exact Heq|].
  apply IH, silence_step, Heq.
Qed.

End WiringProperties.

Section PipelineProperties.
Import Flags Main Pipeline Rfc5424.

Lemma queue_push (c : nat) (m : string) (q : gmap nat (list string)) :
  queue c (push c m q) = (queue c q ++ [m])%list.
Proof. unfold queue at 1, push. rewrite lookup_insert_eq. reflexivity. Qed.

Lemma pop_Some (c : nat) (q q' : gmap nat (list string)) (m : string) :
  pop c q = Some (m, q') -> queue c q = m :: queue c q'.
Proof.
  unfold pop. destruct (queue c q) as [|m' rest] eqn:E; [discriminate|].
  intros H. inversion H; subst. unfold queue at 1. rewrite lookup_insert_eq. reflexivity.
Qed.

(** When listeners and producer share one channel and no parser goroutine
    was started, what the producer has taken and what still waits in the
    channel is what the listeners pushed, in their order; the parser's
    counters stand still. *)
Lemma bypass_flow (c : nat) (evs : list Event) (st : State) :
  received st = (delivered st ++ queue c (queues st))%list ->
  counters (fold_left (react (mkWiring c c None c)) evs st) = counters st /\
  received (fold_left (react (mkWiring c c None c)) evs st)
  = (delivered (fold_left (react (mkWiring c c None c)) evs st)
     ++ queue c (queues (fold_left (react (mkWiring c c None c)) evs st)))%list.
Proof.
  revert st. induction evs as [|ev rest IH]; intros st Hst; simpl; [auto|].
  assert (Hnext : counters (react (mkWiring c c None c) st ev) = counters st /\
                  received (react (mkWiring c c None c) st ev)
                  = (delivered (react (mkWiring c c None c) st ev)
                     ++ queue c (queues (react (mkWiring c c None c) st ev)))%list).
  { destruct ev as [m|m| |]; simpl.
    - rewrite queue_push, Hst, app_assoc. auto.
    - rewrite queue_push, Hst, app_assoc. auto.
    - auto.
    - destruct (pop c (queues st)) as [[m q']|] eqn:E; simpl; [|auto].
      apply pop_Some in E. rewrite Hst, E, <- app_assoc. auto. }
  destruct Hnext as [Hc Hr]. destruct (IH _ Hr) as [Hc' Hr'].
  split; [congruence | exact Hr'].
Qed.

(** C1, as the code has it: with parsing disabled [main] hands the raw
    channel itself to the producer, so every raw message reaches the
    producer unchanged and in order; the parser is constructed so that the
    statistics handler has one, but no message reaches it and its counters,
    [processed] among them, stay at zero. *)
Theorem disabled_parser_is_bypassed
    (cfg : Config) (env : Env) (sched : list Tid) (w : Wiring) (evs : list Event) :
  pEnabled cfg = false ->
  wiringOf (run cfg env sched) = Some w ->
  feed w = None /\ kafkaChan w = tcpChan w /\ udpChan w = tcpChan w /\
  parser (run cfg env sched) = Some NewRfc5424Parser /\
  counters (flow w (run cfg env sched) evs) = NewRfc5424Parser /\
  processed (counters (flow w (run cfg env sched) evs)) = 0 /\
  received (flow w (run cfg env sched) evs)
  = (delivered (flow w (run cfg env sched) evs)
     ++ queue (tcpChan w) (queues (flow w (run cfg env sched) evs)))%list.
Proof.
  intros Hoff Hw. destruct (wiringOf_run cfg env sched w Hw) as [-> Hpar].
  unfold feedOf, producerOf. rewrite Hoff. simpl.
  repeat split; try assumption.
  all: unfold flow;
    destruct (bypass_flow 0 evs (init (run cfg env sched)) eq_refl) as [Hc Hr].
  - rewrite Hc. unfold init. rewrite Hpar. reflexivity.
  - rewrite Hc. unfold init. rewrite Hpar. reflexivity.
  - exact Hr.
Qed.

End PipelineProperties.

(* ===================================================================== *)
(** * Worked instances *)
(* ===================================================================== *)

Section Instances.
Import Flags Main Pipeline Admin.

(** C5, at the code: the producer [main] creates, and every status the
    process reaches, are the same whatever the batch size; [kBatch] is
    parsed and logged and never handed to [NewKafkaProducer]. *)
Theorem producer_ignores_kBatch (cfg : Config) (env : Env) (n : Z) (sched : list Tid) :
  producerOf (set_kBatch n cfg) = producerOf cfg /\
  kafka (run (set_kBatch n cfg) env sched) = kafka (run cfg env sched) /\
  exited (run (set_kBatch n cfg) env sched) = exited (run cfg env sched) /\
  wiringOf (run (set_kBatch n cfg) env sched) = wiringOf (run cfg env sched).
Proof.
  pose proof (silence_run cfg env n sched) as H.
  unfold silence in H. inversion H as [[Hpc Had Hex Hch Hraw Hprod Hpar Hfeed Hk Ht Hu Hh]].
  unfold wiringOf. rewrite Hk, Ht, Hu, Hfeed. auto.
Qed.

Example batch_of_three_same_producer :
  kafka (run (set_kBatch 3 Sample.defaults) Sample.allGood toCompletion)
  = Some (mkKafka 2 ["localhost:9092"] "logs" 1000 524288).
Proof. reflexivity. Qed.

Lemma disabled_parser_is_bypassed_witness :
  pEnabled Sample.parseDisabled = false /\
  wiringOf (run Sample.parseDisabled Sample.allGood toCompletion) = Some (mkWiring 0 0 None 0) /\
  Rfc5424.processed (counters (flow (mkWiring 0 0 None 0)
                                    (run Sample.parseDisabled Sample.allGood toCompletion)
                                    Sample.traffic)) = 0.
Proof.
  split; [reflexivity|]. split; [reflexivity|].
  pose proof (disabled_parser_is_bypassed Sample.parseDisabled Sample.allGood toCompletion
                (mkWiring 0 0 None 0) Sample.traffic eq_refl eq_refl) as H.
  exact (proj1 (proj2 (proj2 (proj2 (proj2 (proj2 H)))))).
Defined.

(** With parsing disabled a message travels from a listener to the producer
    and the parser's [processed] counter is still 0, not 1. *)
Lemma disabled_parser_counts_nothing :
  wiringOf (run Sample.parseDisabled Sample.allGood toCompletion) = Some (mkWiring 0 0 None 0) /\
  delivered (flow (mkWiring 0 0 None 0) (run Sample.parseDisabled Sample.allGood toCompletion)
                  [TcpMessage "<34>1 - - - - - - hi"; ParserTurn; ProducerTurn])
  = ["<34>1 - - - - - - hi"] /\
  Rfc5424.processed
    (counters (flow (mkWiring 0 0 None 0) (run Sample.parseDisabled Sample.allGood toCompletion)
                    [TcpMessage "<34>1 - - - - - - hi"; ParserTurn; ProducerTurn]))
  = Rfc5424.processed Rfc5424.NewRfc5424Parser /\
  Rfc5424.processed
    (counters (flow (mkWiring 0 0 None 0) (run Sample.parseDisabled Sample.allGood toCompletion)
                    [TcpMessage "<34>1 - - - - - - hi"; ParserTurn; ProducerTurn]))
  <> Rfc5424.processed Rfc5424.NewRfc5424Parser + 1.
Proof. vm_compute. repeat split; try reflexivity. discriminate. Qed.

Example enabled_parser_counts :
  Rfc5424.processed
    (counters (flow (mkWiring 0 0 (Some (0%nat, 2%nat)) 2)
                    (run Sample.defaults Sample.allGood toCompletion) Sample.traffic)) = 2 /\
  delivered (flow (mkWiring 0 0 (Some (0%nat, 2%nat)) 2)
                  (run Sample.defaults Sample.allGood toCompletion) Sample.traffic)
  = ["message body"; "not a syslog line"].
Proof. vm_compute. split; reflexivity. Qed.

Lemma statistics_all_or_nothing_witness :
  Sample.visit ≡ₚ resources Sample.healthy Sample.unavailable Sample.healthy Sample.healthy /\
  status (ServeStatistics Sample.visit (mkRequest "pretty" None) (newResponse, [])).1 = Some 500.
Proof.
  assert (Hp : Sample.visit
               ≡ₚ resources Sample.healthy Sample.unavailable Sample.healthy Sample.healthy)
    by apply perm_swap.
  split; [exact Hp|].
  destruct (statistics_all_or_nothing Sample.healthy Sample.unavailable Sample.healthy
              Sample.healthy Sample.visit (mkRequest "pretty" None) [] Hp) as [Hfail _].
  destruct Hfail as (kv & _ & _ & _ & Hs & _).
  - apply Exists_cons_tl, Exists_cons_hd. unfold snapshotFails. simpl. discriminate.
  - exact Hs.
Defined.

Example statistics_merged_example :
  (ServeStatistics
     [("kafka", Dyn Sample.healthy); ("tcp", Dyn Sample.healthy);
      ("udp", Dyn Sample.healthy); ("parser", Dyn Sample.healthy)]
     (mkRequest "" None) (newResponse, [])).1
  = mkResponse ∅ (Some 200) "{kafka,udp,tcp,parser}".
Proof. vm_compute. reflexivity. Qed.


(** A request whose form has the key [pretty] and one setting that does not
    decode: the key is in the parsed form, and the answer is compact. *)
Lemma pretty_ignored_when_form_is_malformed :
  hasKey "pretty" (ParseForm Sample.malformed).1 = true /\
  isPretty Sample.malformed = (false, Some "invalid URL escape") /\
  body (ServeDiagnostics "2026-10-31 02:07:00" "1m0s" Sample.malformed (newResponse, [])).1
  = "{started,uptime}" /\
  ~ (forall req : Request,
       (isPretty req).1 = true <-> hasKey "pretty" (ParseForm req).1 = true).
Proof.
  assert (H1 : hasKey "pretty" (ParseForm Sample.malformed).1 = true) by (vm_compute; reflexivity).
  assert (H2 : isPretty Sample.malformed = (false, Some "invalid URL escape"))
    by (vm_compute; reflexivity).
  split; [exact H1|]. split; [exact H2|]. split; [vm_compute; reflexivity|].
  intros Hall. apply (Hall Sample.malformed) in H1. rewrite H2 in H1. discriminate H1.
Qed.

Lemma pretty_iff_parsed_form_has_key_witness :
  (isPretty (mkRequest "pretty=0" None)).1 = true /\
  ServeStatistics Sample.visit (mkRequest "pretty=0" None) (newResponse, ["started"])
  = (Error "failed to get udp stats" StatusInternalServerError newResponse,
     ["started"; "failed to get udp stats"]) /\
  ServeStatistics [("tcp", Dyn Sample.healthy)] (mkRequest "pretty=0" None) (newResponse, [])
  = (Write (Sample.encodeKeysIndent ({[ "tcp" := Sample.snapshot Sample.healthy ]}
                                       : gmap string (gmap string Z)) "" "    ")
           newResponse, []).
Proof.
  destruct (@pretty_iff_parsed_form_has_key (gmap string Z) _ _ (mkRequest "pretty=0" None))
    as (Hiff & _ & Hstat).
  split; [apply Hiff; split; vm_compute; reflexivity|].
  split; [vm_compute; reflexivity|].
  apply (Hstat _ _ ({[ "tcp" := Sample.snapshot Sample.healthy ]} : gmap string (gmap string Z)));
    vm_compute; reflexivity.
Defined.

Lemma diagnostics_never_fails_witness :
  (ParseForm Sample.malformed).2 = Some "invalid URL escape" /\
  status (ServeDiagnostics "2026-10-31 02:07:00" "1m0s" Sample.malformed (newResponse, [])).1
  = Some 200 /\
  isPretty Sample.malformed = (false, Some "invalid URL escape").
Proof.
  destruct (@diagnostics_never_fails (gmap string Z) _ _ "2026-10-31 02:07:00" "1m0s"
              Sample.malformed []) as (Hstatus & _ & Herr).
  assert (He : (ParseForm Sample.malformed).2 = Some "invalid URL escape")
    by (vm_compute; reflexivity).
  split; [exact He|]. split; [exact Hstatus|].
  exact (proj1 (Herr _ He)).
Defined.

End Instances.

(* ===================================================================== *)
(** * Further properties: the command line *)
(* ===================================================================== *)

Section CommandLine.
Import Flags.

(** X1: each of the five string flags writes the variable [init] bound it
    to and no other, in the two-argument form and in the [-name=value]
    form, whatever the value is: [-admin] the admin interface, [-tcp] and
    [-udp] the two bind addresses, [-broker] the broker list, [-topic] the
    topic. *)
Theorem string_flags_write_their_variable (v : string) :
  (configOf ["-admin"; v] = Some (set_adminIface v (vars init)) /\
   configOf ["-tcp"; v] = Some (set_tcpIface v (vars init)) /\
   configOf ["-udp"; v] = Some (set_udpIface v (vars init)) /\
   configOf ["-broker"; v] = Some (set_kBrokers v (vars init)) /\
   configOf ["-topic"; v] = Some (set_kTopic v (vars init))) /\
  (configOf ["-admin=" +:+ v] = Some (set_adminIface v (vars init)) /\
   configOf ["--tcp=" +:+ v] = Some (set_tcpIface v (vars init)) /\
   configOf ["-udp=" +:+ v] = Some (set_udpIface v (vars init)) /\
   configOf ["--broker=" +:+ v] = Some (set_kBrokers v (vars init)) /\
   configOf ["-topic=" +:+ v] = Some (set_kTopic v (vars init))).
Proof.
  split.
  - repeat split; reflexivity.
  - repeat split; unfold configOf, Parse; simpl; reflexivity.
Qed.







(** Parsing stops at the first argument that does not look like a flag. *)
Lemma parseArgs_stops (fs : list Flag) (c : Config) (a : string) (rest : list string) :
  looksLikeFlag a = false -> parseArgs fs c (a :: rest) = Parsed c (a :: rest).
Proof.
  intros H. destruct a as [|a0 a']; [reflexivity|].
  destruct a0 as [[] [] [] [] [] [] [] []]; try (cbn; reflexivity).
  destruct a' as [|a1 a']; [reflexivity|]. simpl in H. discriminate H.
Qed.

(** One round of the loop on the two spellings of the boolean flag. *)
Lemma parse_bool_step (c : Config) (l : list string) :
  parseArgs (formal init) c ("-parse" :: l) = parseArgs (formal init) (set_pEnabled true c) l /\
  parseArgs (formal init) c ("-parse=false" :: l)
  = parseArgs (formal init) (set_pEnabled false c) l.
Proof. split; reflexivity. Qed.

(** X3: [-parse] is a boolean flag: it takes no argument.  Written as
    [-parse false] it switches parsing on, the word after it ends the
    parsing of the command line, and every flag behind that word is
    ignored; [-parse=false] is what switches parsing off. *)
Theorem parse_flag_takes_no_argument (a : string) (rest : list string) :
  looksLikeFlag a = false ->
  Parse ("-parse" :: a :: rest) = Parsed (vars init) (a :: rest) /\
  pEnabled (vars init) = true /\
  Parse ("-parse=false" :: a :: rest) = Parsed (set_pEnabled false (vars init)) (a :: rest).
Proof.
  intros H. unfold Parse.
  destruct (parse_bool_step (vars init) (a :: rest)) as [Hon Hoff].
  rewrite Hon, Hoff, !(parseArgs_stops _ _ _ _ H).
  assert (Hv : set_pEnabled true (vars init) = vars init) by (vm_compute; reflexivity).
  rewrite Hv.
  split; [reflexivity|].
  split; [vm_compute; reflexivity | reflexivity].
Qed.

Lemma parse_flag_takes_no_argument_witness :
  looksLikeFlag "false" = false /\
  configOf ["-parse"; "false"; "-batch"; "3"] = Some (vars init) /\
  configOf ["-parse=false"; "false"; "-batch"; "3"] = Some (set_pEnabled false (vars init)).
Proof.
  destruct (parse_flag_takes_no_argument "false" ["-batch"; "3"] eq_refl) as (H1 & _ & H2).
  split; [reflexivity|].
  unfold configOf. rewrite H1, H2. split; reflexivity.
Defined.

End CommandLine.

(* ===================================================================== *)
(** * Further properties: the broker list *)
(* ===================================================================== *)

Section BrokerList.
Import Main.

Lemma splitOn_not_nil (sep : ascii) (s : string) : splitOn sep s <> [].
Proof.
  destruct s as [|a rest]; simpl; [discriminate|].
  destruct (Ascii.eqb a sep); [discriminate|].
  destruct (splitOn sep rest); discriminate.
Qed.

Lemma joinWith_cons (sep x : string) (l : list string) :
  l <> [] -> Sample.joinWith sep (x :: l) = x +:+ sep +:+ Sample.joinWith sep l.
Proof. destruct l; [congruence | reflexivity]. Qed.

Lemma joinWith_cons_char (sep : string) (a : ascii) (hd : string) (tl : list string) :
  Sample.joinWith sep (String a hd :: tl) = String a (Sample.joinWith sep (hd :: tl)).
Proof. destruct tl; reflexivity. Qed.

Lemma splitOn_join (sep : ascii) (s : string) :
  Sample.joinWith (String sep EmptyString) (splitOn sep s) = s.
Proof.
  induction s as [|a rest IH]; [reflexivity|].
  simpl. destruct (Ascii.eqb_spec a sep) as [->|Hne].
  - rewrite joinWith_cons by apply splitOn_not_nil. rewrite IH. reflexivity.
  - destruct (splitOn sep rest) as [|hd tl] eqn:E.
    + exfalso. exact (splitOn_not_nil sep rest E).
    + rewrite joinWith_cons_char, IH. reflexivity.
Qed.

Lemma splitOn_free (sep : ascii) (s : string) :
  Forall (fun b => countChar sep b = O) (splitOn sep s).
Proof.
  induction s as [|a rest IH]; simpl; [repeat constructor|].
  destruct (Ascii.eqb_spec a sep) as [->|Hne].
  - constructor; [reflexivity | exact IH].
  - destruct (splitOn sep rest) as [|hd tl] eqn:E.
    + repeat constructor. simpl. destruct (Ascii.eqb_spec a sep); congruence.
    + inversion IH; subst. constructor; [|assumption].
      simpl. destruct (Ascii.eqb_spec a sep); congruence.
Qed.

Lemma splitOn_length (sep : ascii) (s : string) :
  length (splitOn sep s) = S (countChar sep s).
Proof.
  induction s as [|a rest IH]; [reflexivity|].
  simpl. destruct (Ascii.eqb a sep); simpl.
  - rewrite IH. reflexivity.
  - destruct (splitOn sep rest) as [|hd tl] eqn:E; [discriminate IH | exact IH].
Qed.

(** X4: the broker list of the producer [main] creates is the [-broker]
    text cut at its commas: joined by commas it gives the text back, no
    broker contains a comma, and there is one broker more than there are
    commas, so the list is never empty (an empty text gives one empty broker
    address).  Topic and the two buffer limits are the configured ones. *)
Theorem broker_list_round_trip
    (cfg : Flags.Config) (env : Env) (sched : list Tid) (k : KafkaProducer) :
  kafka (run cfg env sched) = Some k ->
  Sample.joinWith "," (brokers k) = Flags.kBrokers cfg /\
  Forall (fun b => countChar "," b = O) (brokers k) /\
  length (brokers k) = S (countChar "," (Flags.kBrokers cfg)) /\
  (Flags.kBrokers cfg = "" -> brokers k = [""]) /\
  topic k = Flags.kTopic cfg /\
  bufferTime k = Flags.kBufferTime cfg /\
  bufferBytes k = Flags.kBufferBytes cfg.
Proof.
  intros Hk. pose proof (wired_run cfg env sched) as Hw.
  destruct Hw as (_ & _ & _ & _ & _ & Hprod & _).
  rewrite (Hprod k Hk). unfold producerOf, splitComma; simpl.
  split; [apply (splitOn_join ",")|].
  split; [apply splitOn_free|].
  split; [apply splitOn_length|].
  split; [intros ->; reflexivity|]. auto.
Qed.

Lemma broker_list_round_trip_witness :
  kafka (run (Flags.set_kBrokers "kafka-1:9092,kafka-2:9092" Sample.defaults)
             Sample.allGood toCompletion)
  = Some (mkKafka 2 ["kafka-1:9092"; "kafka-2:9092"] "logs" 1000 524288) /\
  Sample.joinWith "," ["kafka-1:9092"; "kafka-2:9092"] = "kafka-1:9092,kafka-2:9092".
Proof.
  assert (Hk : kafka (run (Flags.set_kBrokers "kafka-1:9092,kafka-2:9092" Sample.defaults)
                          Sample.allGood toCompletion)
               = Some (mkKafka 2 ["kafka-1:9092"; "kafka-2:9092"] "logs" 1000 524288))
    by (vm_compute; reflexivity).
  split; [exact Hk|].
  exact (proj1 (broker_list_round_trip _ _ _ _ Hk)).
Defined.

End BrokerList.

(* ===================================================================== *)
(** * Further properties: the order of start-up *)
(* ===================================================================== *)

Section StartUpOrder.
Import Flags Main.

Variables (cfg : Config) (env : Env).

Lemma ordered_start : ordered cfg env start.
Proof.
  unfold ordered, start; simpl.
  repeat split; intros; try lia; try congruence; try discriminate; auto.
Qed.

Ltac known_bounds :=
  repeat match goal with
         | H : (?a <= ?b)%nat -> _ |- _ =>
             first [ specialize (H ltac:(lia)) | clear H ]
         | H : (?a = ?b :> nat) -> _ |- _ =>
             first [ specialize (H ltac:(lia)) | clear H ]
         | H : None <> Some _ -> _ |- _ => specialize (H ltac:(discriminate))
         | H : _ /\ _ |- _ => destruct H
         end.

Ltac ordered_case :=
  unfold ordered; simpl;
  repeat split; intros;
  repeat match goal with
         | H : (_ <= _)%nat \/ _ |- _ => destruct H as [H|[? H]]
         end;
  simplify_eq/=; try lia; try congruence; auto.

Lemma ordered_mainStep (p : Proc) :
  running p = true -> inv cfg env p -> wired cfg p -> ordered cfg env p ->
  ordered cfg env (mainStep cfg env p).
Proof.
  unfold running. intros Hrun Hinv Hw Ho. unfold inv in Hinv. unfold wired in Hw.
  unfold ordered in Ho.
  destruct p as [pc0 ad o ex ch raw prod par feed kaf tcp udp hs].
  simpl in *. destruct ex as [c|]; [discriminate|].
  destruct Hinv as (Hpc & Hch & Hns & Hh & Hwi & Hsp & Hfin & Hk & Ht & Hu).
  destruct Hw as (W2 & W4 & W5 & W6 & W3 & Wk & Wt & Wu & Wx).
  destruct Ho as (O7 & O0 & O1 & O2 & O3 & Oh & O4 & O6 & O7' & Ok & Op & Of & Oc).
  unfold mainStep; simpl.
  destruct pc0 as [|[|[|[|[|[|[|n]]]]]]]; simpl; known_bounds.
  - unfold stHostname. destruct (Hostname env) as [h err] eqn:E.
    assert (Hf : hostnameFails env = isSome err) by (unfold hostnameFails; rewrite E; reflexivity).
    destruct err as [e|]; simpl in Hf; ordered_case.
  - ordered_case.
  - unfold stWire. subst.
    destruct (cCapacity cfg <? 0) eqn:Ecap; [ordered_case|].
    destruct (pEnabled cfg) eqn:Ep; ordered_case; right; rewrite Ep; reflexivity.
  - unfold stAdmin. ordered_case.
  - unfold stKafka. simpl. subst prod.
    change (mkKafka _ _ _ _ _) with (producerOf cfg).
    assert (Hf : kafkaFails cfg env = isSome (NewKafkaProducer env (producerOf cfg)))
      by reflexivity.
    destruct (NewKafkaProducer env (producerOf cfg)) as [e|]; simpl in Hf; ordered_case.
  - unfold stTcp. simpl. subst raw.
    assert (Hk5 : kafkaFails cfg env = false /\ kaf <> None)
      by (apply O6; right; split; [lia | reflexivity]).
    destruct Hk5 as [? ?].
    assert (Hf : tcpFails cfg env = isSome (TcpStartChan env (mkServer (tcpIface cfg) 0)))
      by reflexivity.
    destruct (TcpStartChan env (mkServer (tcpIface cfg) 0)) as [e|]; simpl in Hf; ordered_case.
  - unfold stUdp. simpl. subst raw.
    assert (Hk5 : kafkaFails cfg env = false /\ kaf <> None) by (apply O6; left; lia).
    destruct Hk5 as [? ?].
    assert (Ht6 : tcpFails cfg env = false /\ tcp <> None)
      by (apply O7'; right; split; [lia | reflexivity]).
    destruct Ht6 as [? ?].
    destruct (UdpStartChan env _) as [e|]; ordered_case.
  - assert (Hk5 : kafkaFails cfg env = false /\ kaf <> None) by (apply O6; left; lia).
    destruct Hk5 as [? ?].
    assert (Ht6 : tcpFails cfg env = false /\ tcp <> None) by (apply O7'; left; lia).
    destruct Ht6 as [? ?].
    destruct n; simpl; ordered_case.
Qed.

Lemma ordered_adminStep (p : Proc) :
  running p = true -> ordered cfg env p -> ordered cfg env (adminStep cfg env p).
Proof.
  unfold running. intros Hrun Ho. unfold adminStep. destruct (admin p) eqn:Had; try exact Ho.
  destruct (ListenAndServe env (adminIface cfg)) as [|[e|]]; [exact Ho| |].
  all: unfold ordered in Ho;
    destruct p as [pc0 ad o ex ch raw prod par feed kaf tcp udp hs];
    simpl in *; subst ad; destruct ex as [c|]; [discriminate|];
    destruct Ho as (O7 & O0 & O1 & O2 & O3 & Oh & O4 & O6 & O7' & Ok & Op & Of & Oc);
    assert (Hpc4 : (4 <= pc0)%nat)
      by (destruct (le_lt_dec 4 pc0) as [|Hlt]; [assumption|];
          destruct (O3 ltac:(lia)) as [Hns _]; discriminate Hns);
    destruct (O4 Hpc4) as (? & ? & ? & ?);
    unfold ordered; simpl;
    repeat split; intros; try lia; try discriminate; auto.
  all: match goal with
       | H : (6 <= _)%nat \/ _ |- _ =>
           destruct H as [H|[H' H]];
           [ destruct (O6 (or_introl H)) as [? ?]
           | first [ discriminate H | destruct (O6 (or_intror (conj H' H))) as [? ?] ] ]
       | H : (7 <= _)%nat \/ _ |- _ =>
           destruct H as [H|[H' H]];
           [ destruct (O7' (or_introl H)) as [? ?]
           | first [ discriminate H | destruct (O7' (or_intror (conj H' H))) as [? ?] ] ]
       end; auto; congruence.
Qed.

Lemma ordered_run (sched : list Tid) : ordered cfg env (run cfg env sched).
Proof.
  induction sched as [|t rest IH] using rev_ind; [apply ordered_start|].
  rewrite run_snoc. unfold step. destruct (running (run cfg env rest)) eqn:Hrun; [|exact IH].
  destruct t.
  - apply ordered_mainStep; auto using inv_run, wired_run.
  - apply ordered_adminStep; assumption.
Qed.

(** X5: when the hostname cannot be determined nothing is built: no
    channel is made, no parser, no route and no admin goroutine, no
    producer and no listener; all the process ever prints is the one
    diagnostic line, and it prints it as it exits with status 1. *)
Theorem hostname_failure_builds_nothing (sched : list Tid) :
  hostnameFails env = true ->
  chans (run cfg env sched) = [] /\
  parser (run cfg env sched) = None /\
  admin (run cfg env sched) = NotSpawned /\
  handlers (run cfg env sched) = [] /\
  kafka (run cfg env sched) = None /\
  tcpServer (run cfg env sched) = None /\
  udpServer (run cfg env sched) = None /\
  (out (run cfg env sched) = [] /\ exited (run cfg env sched) = None \/
   out (run cfg env sched) = [LogPrintln "unable to determine hostname -- aborting"] /\
   exited (run cfg env sched) = Some 1).
Proof.
  intros Hfail.
  pose proof (ordered_run sched) as Ho. pose proof (wired_run cfg env sched) as Hw.
  pose proof (inv_run cfg env sched) as Hinv.
  destruct Ho as (O7 & O0 & O1 & O2 & O3 & Oh & O4 & O6 & O7' & Ok & Op & Of & Oc).
  destruct Hw as (W2 & W4 & W5 & W6 & W3 & Wk & Wt & Wu & Wx).
  assert (Hpc : (pc (run cfg env sched) <= 1)%nat).
  { destruct (le_lt_dec (pc (run cfg env sched)) 1) as [|Hlt]; [assumption|].
    rewrite (Oh ltac:(lia)) in Hfail. discriminate Hfail. }
  destruct (W2 ltac:(lia)) as [Hch _]. destruct (O2 ltac:(lia)) as [Hpar _].
  destruct (O3 ltac:(lia)) as [Had Hhs].
  repeat split; auto; try (apply W4 || apply W5 || apply W6; lia).
  destruct (pc (run cfg env sched)) as [|[|n]] eqn:Epc; [| |lia].
  - left. apply O0. reflexivity.
  - right. apply O1; [reflexivity | exact Hfail].
Qed.

Lemma not_None_pc {A : Type} (field : option A) (n m : nat) :
  ((m <= n)%nat -> field = None) -> field <> None -> (S n <= m)%nat.
Proof.
  intros Hnone Hsome. destruct (le_lt_dec m n) as [Hle|Hlt]; [|lia].
  exfalso. apply Hsome, Hnone, Hle.
Qed.

(** X6: [main] builds its resources in one order and stops at the first
    failure: a UDP server exists only if the TCP server was started, the
    TCP server only if the producer was created, the producer only after the
    two routes were registered, the admin goroutine spawned and the parser
    constructed.  So a broker that cannot be reached means that no listener
    is ever constructed, and a TCP server that cannot start means that there
    is no UDP server. *)
Theorem startup_order (sched : list Tid) :
  (udpServer (run cfg env sched) <> None ->
     tcpServer (run cfg env sched) <> None /\ tcpFails cfg env = false) /\
  (tcpServer (run cfg env sched) <> None ->
     kafka (run cfg env sched) <> None /\ kafkaFails cfg env = false) /\
  (kafka (run cfg env sched) <> None ->
     admin (run cfg env sched) <> NotSpawned /\
     handlers (run cfg env sched) = ["/statistics"; "/diagnostics"] /\
     parser (run cfg env sched) <> None /\ 0 <= cCapacity cfg) /\
  (admin (run cfg env sched) <> NotSpawned ->
     parser (run cfg env sched) <> None /\ hostnameFails env = false) /\
  (kafkaFails cfg env = true ->
     tcpServer (run cfg env sched) = None /\ udpServer (run cfg env sched) = None) /\
  (tcpFails cfg env = true -> udpServer (run cfg env sched) = None).
Proof.
  pose proof (ordered_run sched) as Ho. pose proof (wired_run cfg env sched) as Hw.
  destruct Ho as (O7 & O0 & O1 & O2 & O3 & Oh & O4 & O6 & O7' & Ok & Op & Of & Oc).
  destruct Hw as (W2 & W4 & W5 & W6 & W3 & Wk & Wt & Wu & Wx).
  assert (Hudp : udpServer (run cfg env sched) <> None ->
                 tcpServer (run cfg env sched) <> None /\ tcpFails cfg env = false).
  { intros H. pose proof (not_None_pc _ _ _ W6 H) as Hpc.
    destruct (O7' (or_introl Hpc)). auto. }
  assert (Htcp : tcpServer (run cfg env sched) <> None ->
                 kafka (run cfg env sched) <> None /\ kafkaFails cfg env = false).
  { intros H. pose proof (not_None_pc _ _ _ W5 H) as Hpc.
    destruct (O6 (or_introl Hpc)). auto. }
  assert (Hadm : admin (run cfg env sched) <> NotSpawned -> (4 <= pc (run cfg env sched))%nat).
  { intros H. destruct (le_lt_dec 4 (pc (run cfg env sched))) as [|Hlt]; [assumption|].
    destruct (O3 ltac:(lia)) as [Hns _]. contradiction. }
  split; [exact Hudp|]. split; [exact Htcp|]. split; [|split; [|split]].
  - intros H. pose proof (not_None_pc _ _ _ W4 H) as Hpc.
    destruct (O4 ltac:(lia)) as (Hcap & Hpar & Had & Hhs).
    repeat split; auto. apply Z.ltb_ge. exact Hcap.
  - intros H. specialize (Hadm H). destruct (O4 Hadm) as (_ & Hpar & _).
    split; [exact Hpar | apply Oh; lia].
  - intros Hf.
    assert (Ht : tcpServer (run cfg env sched) = None).
    { destruct (tcpServer (run cfg env sched)) eqn:E; [|reflexivity].
      destruct Htcp as [_ Hk]; [discriminate | congruence]. }
    split; [exact Ht|].
    destruct (udpServer (run cfg env sched)) eqn:E; [|reflexivity].
    destruct Hudp as [Hk _]; [discriminate | congruence].
  - intros Hf. destruct (udpServer (run cfg env sched)) eqn:E; [|reflexivity].
    destruct Hudp as [_ Hk]; [discriminate | congruence].
Qed.

(** X7: the channel [main] makes for [prodChan] is never used: no
    listener, no parser and no producer is ever given it, and [prodChan]
    itself names another channel at every point between two statements.
    [main] makes two channels with the configured capacity; with parsing
    enabled there is a third one, which [StreamingParse] returned, and that
    one is the producer's. *)
Theorem made_prodChan_is_unused (sched : list Tid) :
  prodChan (run cfg env sched) <> 1%nat /\
  (forall k, kafka (run cfg env sched) = Some k ->
     msgChan k = if pEnabled cfg then 2%nat else 0%nat) /\
  (forall t, tcpServer (run cfg env sched) = Some t -> target t = 0%nat) /\
  (forall u, udpServer (run cfg env sched) = Some u -> target u = 0%nat) /\
  (parserFeed (run cfg env sched) = None \/
   parserFeed (run cfg env sched) = Some (0%nat, 2%nat)) /\
  (chans (run cfg env sched) = [] \/
   chans (run cfg env sched)
   = Made (cCapacity cfg) :: Made (cCapacity cfg)
     :: (if pEnabled cfg then [FromStreamingParse] else [])).
Proof.
  pose proof (ordered_run sched) as Ho. pose proof (wired_run cfg env sched) as Hw.
  destruct Ho as (O7 & O0 & O1 & O2 & O3 & Oh & O4 & O6 & O7' & Ok & Op & Of & Oc).
  destruct Hw as (W2 & W4 & W5 & W6 & W3 & Wk & Wt & Wu & Wx).
  split; [exact Op|]. split; [|auto].
  intros k Hk. rewrite (Wk k Hk). reflexivity.
Qed.

Lemma exit_truthful (p : Proc) (t : Tid) :
  running p = true -> inv cfg env p ->
  exited (step cfg env p t) = Some 1 ->
  exists o, last (out (step cfg env p t)) = Some o /\ truthful cfg env o.
Proof.
  unfold running. intros Hrun Hinv. unfold step, running. 
  destruct (exited p) as [c|] eqn:Ex; [discriminate|].
  unfold inv in Hinv. rewrite Ex in Hinv.
  destruct p as [pc0 ad o ex ch raw prod par feed kaf tcp udp hs]. simpl in *. subst ex.
  destruct Hinv as (Hpc & Hch & Hns & Hh & Hwi & Hsp & Hfin & Hk & Ht & Hu).
  destruct t.
  - unfold mainStep; simpl.
    destruct pc0 as [|[|[|[|[|[|[|n]]]]]]]; simpl; try discriminate.
    + unfold stHostname. destruct (Hostname env) as [h err] eqn:E.
      destruct err as [e|]; simpl; [|discriminate].
      intros _. eexists. rewrite last_snoc. split; [reflexivity|].
      simpl. split; [reflexivity|]. unfold hostnameFails. rewrite E. reflexivity.
    + unfold stWire. destruct (cCapacity cfg <? 0); [discriminate|].
      destruct (pEnabled cfg); discriminate.
    + unfold stKafka; simpl. destruct (Hwi ltac:(lia)) as (_ & _ & Hprod). subst prod.
      change (mkKafka _ _ _ _ _) with (producerOf cfg).
      destruct (NewKafkaProducer env (producerOf cfg)) as [e|] eqn:E; simpl; [|discriminate].
      intros _. eexists. rewrite last_snoc. split; [reflexivity|].
      simpl. right. left. auto.
    + unfold stTcp; simpl. destruct (Hwi ltac:(lia)) as (_ & Hraw & _). subst raw.
      destruct (TcpStartChan env _) as [e|] eqn:E; simpl; [|discriminate].
      intros _. eexists. rewrite last_snoc. split; [reflexivity|].
      simpl. right. right. left. auto.
    + unfold stUdp; simpl. destruct (Hwi ltac:(lia)) as (_ & Hraw & _). subst raw.
      destruct (UdpStartChan env _) as [e|] eqn:E; simpl; [|discriminate].
      intros _. eexists. rewrite last_snoc. split; [reflexivity|].
      simpl. right. right. right. auto.
    + destruct n; simpl; discriminate.
  - unfold adminStep; simpl. destruct ad; try discriminate.
    destruct (ListenAndServe env (adminIface cfg)) as [|[e|]] eqn:E; simpl; try discriminate.
    intros _. eexists. rewrite last_snoc. split; [reflexivity|].
    simpl. left. auto.
Qed.

Lemma exited_truthful (sched : list Tid) :
  exited (run cfg env sched) = Some 1 ->
  exists o, last (out (run cfg env sched)) = Some o /\ truthful cfg env o.
Proof.
  induction sched as [|t rest IH] using rev_ind; [discriminate|].
  rewrite run_snoc. destruct (running (run cfg env rest)) eqn:Hrun.
  - apply exit_truthful; [exact Hrun | apply inv_run].
  - unfold step. rewrite Hrun. exact IH.
Qed.

(** X8: while the admin server serves (its goroutine then never comes
    back to write [main]'s variable [err]), a process that has exited with
    status 1 has printed, as its last line, the diagnostic of a call of
    [main] that did fail, together with the error text that call returned:
    the line names the true cause, and it is not the admin server's. *)
Theorem diagnostic_names_the_cause (sched : list Tid) :
  ListenAndServe env (adminIface cfg) = ServesForever ->
  exited (run cfg env sched) = Some 1 ->
  exists o, last (out (run cfg env sched)) = Some o /\ truthful cfg env o /\
            forall e, o <> FmtPrintln ["Failed to start admin server"; e].
Proof.
  intros Hserve Hex. destruct (exited_truthful sched Hex) as (o & Hlast & Ht).
  exists o. split; [exact Hlast|]. split; [exact Ht|].
  intros e ->. simpl in Ht.
  destruct Ht as [[_ H]|[[H _]|[[H _]|[H _]]]]; [congruence | discriminate H ..].
Qed.

End StartUpOrder.

(* ===================================================================== *)
(** * Further properties: the statistics handler *)
(* ===================================================================== *)

Section StatisticsHandler.
Import Admin.

Context {Registry TcpServer UdpServer Rfc5424Parser KafkaProducer : Type}.
Context `{!Statistics Registry TcpServer, !Statistics Registry UdpServer,
          !Statistics Registry Rfc5424Parser, !Statistics Registry KafkaProducer}.
Context `{!Marshaler (gmap string Registry)}.

Variables (tcpServer : TcpServer) (udpServer : UdpServer)
          (parser : Rfc5424Parser) (kafka : KafkaProducer).

Abbreviation resources := (resources tcpServer udpServer parser kafka).
Abbreviation merged := (merged tcpServer udpServer parser kafka).

Lemma rangeResources_first (pre post : list (string * StatisticsValue Registry))
    (kv : string * StatisticsValue Registry) (acc : gmap string Registry) :
  Forall (fun x => ~ snapshotFails x) pre -> snapshotFails kv ->
  rangeResources (pre ++ kv :: post) acc = inl kv.1.
Proof.
  revert acc. induction pre as [|[k v] pre IH]; intros acc Hpre Hkv; simpl.
  - destruct kv as [k v]. unfold snapshotFails in Hkv. simpl in *.
    destruct (callGetStatistics v) as [s [e|]]; simpl in *; [reflexivity | congruence].
  - inversion Hpre as [|? ? Hhd Htl]; subst.
    unfold snapshotFails in Hhd; simpl in Hhd.
    destruct (callGetStatistics v) as [s [e|]]; simpl in Hhd.
    + exfalso. apply Hhd. discriminate.
    + apply IH; assumption.
Qed.

(** X9: the failure response names the first component, in the order of
    the visit, whose snapshot fails; what comes behind it in that order
    (failing or not) and the request itself have no part in the answer. *)
Theorem first_failure_is_reported
    (pre post : list (string * StatisticsValue Registry))
    (kv : string * StatisticsValue Registry) (req : Request) (log : list string) :
  Forall (fun x => ~ snapshotFails x) pre -> snapshotFails kv ->
  ServeStatistics (pre ++ kv :: post) req (newResponse, log)
  = (Error ("failed to get " +:+ kv.1 +:+ " stats") StatusInternalServerError newResponse,
     (log ++ ["failed to get " +:+ kv.1 +:+ " stats"])%list).
Proof.
  intros Hpre Hkv. unfold ServeStatistics.
  rewrite (rangeResources_first pre post kv ∅ Hpre Hkv). reflexivity.
Qed.

(** X10: when the snapshot of exactly one component fails, the response
    is the same for every order of the visit and every request: status 500
    and the failure text with that component's name, and one line in the
    log. *)
Theorem single_failure_response
    (order : list (string * StatisticsValue Registry))
    (kv : string * StatisticsValue Registry) (req : Request) (log : list string) :
  order ≡ₚ resources ->
  kv ∈ resources -> snapshotFails kv ->
  (forall x, x ∈ resources -> snapshotFails x -> x.1 = kv.1) ->
  ServeStatistics order req (newResponse, log)
  = (Error ("failed to get " +:+ kv.1 +:+ " stats") StatusInternalServerError newResponse,
     (log ++ ["failed to get " +:+ kv.1 +:+ " stats"])%list).
Proof.
  intros Hperm Hin Hf Honly.
  assert (Hex : Exists snapshotFails order).
  { apply Exists_exists. exists kv. split; [|exact Hf].
    rewrite Hperm. exact Hin. }
  destruct (rangeResources_fail order ∅ Hex) as (x & Hx & Hfx & Hr).
  rewrite Hperm in Hx. rewrite (Honly x Hx Hfx) in Hr.
  unfold ServeStatistics. rewrite Hr. reflexivity.
Qed.

Lemma rangeResources_inr (order : list (string * StatisticsValue Registry))
    (acc m : gmap string Registry) :
  rangeResources order acc = inr m -> Forall (fun x => ~ snapshotFails x) order.
Proof.
  revert acc. induction order as [|[k v] rest IH]; intros acc Hr; [constructor|].
  simpl in Hr. destruct (callGetStatistics v) as [s [e|]] eqn:E; [discriminate|].
  constructor; [|eapply IH; exact Hr].
  unfold snapshotFails; simpl. rewrite E. simpl. intros Hn. apply Hn. reflexivity.
Qed.

(** X11: a statistics response has status 200 or status 500, and it has
    status 200 exactly when all four snapshots succeed and the encoder
    returns no error.  With status 200 the body is the encoding of the
    merged object, no header is set and nothing is logged; with status 500
    the body is plain text, declared as such, and one line is logged. *)
Theorem statistics_status
    (order : list (string * StatisticsValue Registry)) (req : Request) (log : list string) :
  order ≡ₚ resources ->
  (status (ServeStatistics order req (newResponse, log)).1 = Some 200 \/
   status (ServeStatistics order req (newResponse, log)).1 = Some 500) /\
  (status (ServeStatistics order req (newResponse, log)).1 = Some 200
   <-> Forall (fun x => ~ snapshotFails x) resources /\ (encoded req merged).2 = None) /\
  (status (ServeStatistics order req (newResponse, log)).1 = Some 200 ->
     ServeStatistics order req (newResponse, log)
     = (mkResponse ∅ (Some 200) (encoded req merged).1, log)) /\
  (status (ServeStatistics order req (newResponse, log)).1 = Some 500 ->
     header (ServeStatistics order req (newResponse, log)).1 !! "Content-Type"
     = Some "text/plain; charset=utf-8" /\
     length (ServeStatistics order req (newResponse, log)).2 = S (length log)).
Proof.
  intros Hperm.
  destruct (rangeResources order ∅) as [k|stats] eqn:Hr.
  - (* a snapshot failed *)
    assert (Hs : ServeStatistics order req (newResponse, log)
                 = (Error ("failed to get " +:+ k +:+ " stats") StatusInternalServerError
                          newResponse,
                    (log ++ ["failed to get " +:+ k +:+ " stats"])%list))
      by (unfold ServeStatistics; rewrite Hr; reflexivity).
    rewrite Hs. simpl fst. simpl snd.
    assert (Hnot : ~ Forall (fun x => ~ snapshotFails x) resources).
    { intros Hall.
      assert (Hall' : Forall (fun x => ~ snapshotFails x) order)
        by (eapply Forall_perm; [symmetry; exact Hperm | exact Hall]).
      rewrite (rangeResources_ok order ∅ Hall') in Hr. discriminate Hr. }
    split; [right; reflexivity|]. split; [|split].
    + split; [discriminate | intros [Hall _]; contradiction].
    + discriminate.
    + intros _. split; [reflexivity|]. rewrite length_app. simpl. lia.
  - (* all four snapshots are there *)
    pose proof (rangeResources_inr order ∅ stats Hr) as Hall.
    assert (Hall' : Forall (fun x => ~ snapshotFails x) resources)
      by (eapply Forall_perm; [exact Hperm | exact Hall]).
    assert (Hm : stats = merged).
    { rewrite (rangeResources_ok order ∅ Hall) in Hr. inversion Hr.
      apply merged_statistics, Hperm. }
    subst stats.
    assert (Hs : ServeStatistics order req (newResponse, log)
                 = match (encoded req merged).2 with
                   | Some _ =>
                       (Error "failed to JSON marshal statistics map"
                              StatusInternalServerError newResponse,
                        (log ++ ["failed to JSON marshal statistics map"])%list)
                   | None => (Write (encoded req merged).1 newResponse, log)
                   end).
    { unfold ServeStatistics, encoded. rewrite Hr.
      destruct (isPretty req) as [pretty e]; simpl.
      destruct pretty.
      - destruct (MarshalIndent _ "" "    ") as [b [err|]]; reflexivity.
      - destruct (Marshal _) as [b [err|]]; reflexivity. }
    rewrite Hs. destruct (encoded req merged) as [b [err|]]; simpl.
    + split; [right; reflexivity|]. split; [|split].
      * split; [discriminate | intros [_ Hn]; discriminate Hn].
      * discriminate.
      * intros _. split; [reflexivity|]. rewrite length_app. simpl. lia.
    + split; [left; reflexivity|]. split; [|split].
      * split; auto.
      * intros _. reflexivity.
      * discriminate.
Qed.

End StatisticsHandler.

(* ===================================================================== *)
(** * Further properties: the [pretty] parameter *)
(* ===================================================================== *)

Section PrettyParameter.
Import Admin.










End PrettyParameter.

(* ===================================================================== *)
(** * Further properties: the message path with parsing enabled *)
(* ===================================================================== *)

Section EnabledPath.
Import Flags Main Pipeline Rfc5424.

Lemma StreamingParse_snoc (p : Rfc5424Parser) (l : list string) (m : string) :
  StreamingParse p (l ++ [m])
  = ((parseOne (StreamingParse p l).1 m).1,
     ((StreamingParse p l).2 ++ [(parseOne (StreamingParse p l).1 m).2])%list).
Proof.
  revert p. induction l as [|x l IH]; intros p; simpl.
  - destruct (parseOne p m); reflexivity.
  - destruct (parseOne p x) as [p1 o]. rewrite IH.
    destruct (StreamingParse p1 l) as [p2 outs]. simpl.
    destruct (parseOne p2 m); reflexivity.
Qed.

Lemma StreamingParse_processed (p : Rfc5424Parser) (l : list string) :
  processed (StreamingParse p l).1 = processed p + Z.of_nat (length l).
Proof.
  revert p. induction l as [|x l IH]; intros p; [simpl; lia|].
  simpl. pose proof (parseOne_spec p x) as (_ & Hp & _).
  destruct (parseOne p x) as [p1 o]. specialize (IH p1).
  destruct (StreamingParse p1 l) as [p2 outs]. simpl in *. lia.
Qed.

Lemma queue_push_ne (c c' : nat) (m : string) (q : gmap nat (list string)) :
  c <> c' -> queue c' (push c m q) = queue c' q.
Proof. intros Hne. unfold queue, push. rewrite lookup_insert_ne by exact Hne. reflexivity. Qed.

Lemma pop_Some_ne (c c' : nat) (q q' : gmap nat (list string)) (m : string) :
  c <> c' -> pop c q = Some (m, q') -> queue c' q' = queue c' q.
Proof.
  intros Hne. unfold pop. destruct (queue c q) as [|m' rest]; [discriminate|].
  intros H. inversion H; subst. unfold queue. rewrite lookup_insert_ne by exact Hne.
  reflexivity.
Qed.

Lemma parsedSoFar_react (p0 : Rfc5424Parser) (st : State) (taken : list string) (ev : Event) :
  parsedSoFar p0 st taken ->
  exists taken', parsedSoFar p0 (react enabledWiring st ev) taken'.
Proof.
  intros (Hrec & Hout & Hcnt). destruct ev as [m|m| |]; simpl.
  - exists taken. unfold parsedSoFar; simpl.
    rewrite queue_push, (queue_push_ne 0 2) by discriminate.
    rewrite Hrec, app_assoc. auto.
  - exists taken. unfold parsedSoFar; simpl.
    rewrite queue_push, (queue_push_ne 0 2) by discriminate.
    rewrite Hrec, app_assoc. auto.
  - destruct (pop 0 (queues st)) as [[m q']|] eqn:E; [|exists taken; split; auto].
    exists (taken ++ [m])%list.
    pose proof (pop_Some _ _ _ _ E) as H0.
    pose proof (pop_Some_ne 0 2 _ _ _ ltac:(discriminate) E) as H2.
    destruct (parseOne (counters st) m) as [c pm] eqn:Ep.
    unfold parsedSoFar; simpl.
    rewrite queue_push, (queue_push_ne 2 0) by discriminate.
    rewrite StreamingParse_snoc. simpl. rewrite <- Hcnt, Ep. simpl.
    rewrite map_app. simpl. rewrite <- Hout, H2, Hrec, H0, <- !app_assoc. auto.
  - destruct (pop 2 (queues st)) as [[m q']|] eqn:E; [|exists taken; split; auto].
    exists taken.
    pose proof (pop_Some _ _ _ _ E) as H2.
    pose proof (pop_Some_ne 2 0 _ _ _ ltac:(discriminate) E) as H0.
    unfold parsedSoFar; simpl.
    rewrite H0, <- Hout, H2, <- app_assoc. auto.
Qed.

Lemma parsedSoFar_flow (p0 : Rfc5424Parser) (evs : list Event) (st : State)
    (taken : list string) :
  parsedSoFar p0 st taken ->
  exists taken', parsedSoFar p0 (fold_left (react enabledWiring) evs st) taken'.
Proof.
  revert st taken. induction evs as [|ev evs IH]; intros st taken H; simpl; [eauto|].
  destruct (parsedSoFar_react p0 st taken ev H) as [taken' H']. eauto.
Qed.

(** X13: with parsing enabled the producer is given the channel
    [StreamingParse] returned and the listeners the raw channel, so nothing
    reaches the producer but through the parser: what the producer has taken
    and what waits for it are, in order, the parser's results for the
    messages it took from the raw channel, which are the first of the
    messages the listeners pushed; the parser (modelled from the design)
    has counted each of them once. *)
Theorem enabled_path_goes_through_parser
    (cfg : Config) (env : Env) (sched : list Tid) (w : Wiring) (evs : list Event) :
  pEnabled cfg = true ->
  wiringOf (run cfg env sched) = Some w ->
  w = enabledWiring /\
  exists taken : list string,
    received (flow w (run cfg env sched) evs)
    = (taken ++ queue 0 (queues (flow w (run cfg env sched) evs)))%list /\
    (delivered (flow w (run cfg env sched) evs)
     ++ queue 2 (queues (flow w (run cfg env sched) evs)))%list
    = map wireText (StreamingParse NewRfc5424Parser taken).2 /\
    processed (counters (flow w (run cfg env sched) evs)) = Z.of_nat (length taken).
Proof.
  intros Hon Hw. destruct (wiringOf_run cfg env sched w Hw) as [-> Hpar].
  unfold feedOf, producerOf. rewrite Hon. simpl.
  split; [reflexivity|].
  fold enabledWiring. unfold flow.
  destruct (parsedSoFar_flow NewRfc5424Parser evs (init (run cfg env sched)) [])
    as (taken & Hrec & Hout & Hcnt).
  { unfold parsedSoFar, init. rewrite Hpar. simpl. auto. }
  exists taken. split; [exact Hrec|]. split; [exact Hout|].
  rewrite Hcnt, StreamingParse_processed. simpl. lia.
Qed.

End EnabledPath.

(* ===================================================================== *)
(** * Further worked instances *)
(* ===================================================================== *)

Section FurtherInstances.
Import Flags Main Pipeline Admin.

Lemma hostname_failure_builds_nothing_witness :
  hostnameFails Sample.noHostname = true /\
  chans (run Sample.defaults Sample.noHostname toCompletion) = [] /\
  admin (run Sample.defaults Sample.noHostname toCompletion) = NotSpawned.
Proof.
  split; [reflexivity|].
  destruct (hostname_failure_builds_nothing Sample.defaults Sample.noHostname toCompletion
              eq_refl) as (Hch & _ & Had & _).
  split; [exact Hch | exact Had].
Defined.

Lemma diagnostic_names_the_cause_witness :
  exited (run Sample.defaults Sample.tcpTaken toCompletion) = Some 1 /\
  exists o, last (out (run Sample.defaults Sample.tcpTaken toCompletion)) = Some o /\
            truthful Sample.defaults Sample.tcpTaken o.
Proof.
  assert (Hex : exited (run Sample.defaults Sample.tcpTaken toCompletion) = Some 1)
    by (vm_compute; reflexivity).
  split; [exact Hex|].
  destruct (diagnostic_names_the_cause Sample.defaults Sample.tcpTaken toCompletion
              eq_refl Hex) as (o & Hlast & Ht & _).
  exists o. split; [exact Hlast | exact Ht].
Defined.

Example tcp_failure_last_line :
  last (out (run Sample.defaults Sample.tcpTaken toCompletion))
  = Some (FmtPrintln ["Failed to start TCP server";
                      "listen tcp 127.0.0.1:514: bind: address already in use"]) /\
  udpServer (run Sample.defaults Sample.tcpTaken toCompletion) = None.
Proof. vm_compute. split; reflexivity. Qed.

Lemma first_failure_is_reported_witness :
  Forall (fun x => ~ snapshotFails x) [("tcp", @Dyn (gmap string Z) _ _ Sample.healthy)] /\
  snapshotFails ("parser", @Dyn (gmap string Z) _ _ Sample.unavailable) /\
  ServeStatistics
    ([("tcp", Dyn Sample.healthy)] ++ ("parser", Dyn Sample.unavailable)
       :: [("udp", Dyn Sample.unavailable); ("kafka", Dyn Sample.healthy)])
    Sample.malformed (newResponse, [])
  = (Error "failed to get parser stats" StatusInternalServerError newResponse,
     ["failed to get parser stats"]).
Proof.
  assert (Hpre : Forall (fun x => ~ snapshotFails x)
                        [("tcp", @Dyn (gmap string Z) _ _ Sample.healthy)]).
  { constructor; [|constructor]. unfold snapshotFails. simpl. intros H. apply H. reflexivity. }
  assert (Hkv : snapshotFails ("parser", @Dyn (gmap string Z) _ _ Sample.unavailable)).
  { unfold snapshotFails. simpl. discriminate. }
  split; [exact Hpre|]. split; [exact Hkv|].
  exact (first_failure_is_reported _ _ _ Sample.malformed [] Hpre Hkv).
Defined.

Lemma single_failure_response_witness :
  Sample.visit ≡ₚ resources Sample.healthy Sample.unavailable Sample.healthy Sample.healthy /\
  ServeStatistics Sample.visit (mkRequest "pretty" None) (newResponse, [])
  = (Error "failed to get udp stats" StatusInternalServerError newResponse,
     ["failed to get udp stats"]).
Proof.
  assert (Hp : Sample.visit
               ≡ₚ resources Sample.healthy Sample.unavailable Sample.healthy Sample.healthy)
    by apply perm_swap.
  split; [exact Hp|].
  apply (single_failure_response Sample.healthy Sample.unavailable Sample.healthy
           Sample.healthy Sample.visit ("udp", Dyn Sample.unavailable)
           (mkRequest "pretty" None) [] Hp).
  - unfold resources. apply list_elem_of_further, list_elem_of_here.
  - unfold snapshotFails. simpl. discriminate.
  - intros x Hx Hf. unfold resources in Hx.
    repeat (apply elem_of_cons in Hx; destruct Hx as [->|Hx]); try reflexivity.
    + exfalso. apply Hf. reflexivity.
    + exfalso. apply Hf. reflexivity.
    + exfalso. apply Hf. reflexivity.
    + inversion Hx.
Defined.

Lemma statistics_status_witness :
  [("udp", @Dyn (gmap string Z) _ _ Sample.healthy); ("tcp", Dyn Sample.healthy);
   ("parser", Dyn Sample.healthy); ("kafka", Dyn Sample.healthy)]
  ≡ₚ resources Sample.healthy Sample.healthy Sample.healthy Sample.healthy /\
  status (ServeStatistics
            [("udp", @Dyn (gmap string Z) _ _ Sample.healthy); ("tcp", Dyn Sample.healthy);
             ("parser", Dyn Sample.healthy); ("kafka", Dyn Sample.healthy)]
            (mkRequest "pretty" None) (newResponse, [])).1 = Some 200.
Proof.
  assert (Hp : [("udp", @Dyn (gmap string Z) _ _ Sample.healthy); ("tcp", Dyn Sample.healthy);
                ("parser", Dyn Sample.healthy); ("kafka", Dyn Sample.healthy)]
               ≡ₚ resources Sample.healthy Sample.healthy Sample.healthy Sample.healthy)
    by apply perm_swap.
  split; [exact Hp|].
  destruct (statistics_status Sample.healthy Sample.healthy Sample.healthy Sample.healthy
              _ (mkRequest "pretty" None) [] Hp) as (_ & Hiff & _).
  apply Hiff. split; [|reflexivity].
  unfold resources. repeat constructor; unfold snapshotFails; simpl; intros H; apply H; reflexivity.
Defined.


Lemma enabled_path_goes_through_parser_witness :
  pEnabled Sample.defaults = true /\
  wiringOf (run Sample.defaults Sample.allGood toCompletion) = Some enabledWiring /\
  exists taken : list string,
    received (flow enabledWiring (run Sample.defaults Sample.allGood toCompletion) Sample.traffic)
    = (taken ++ queue 0 (queues (flow enabledWiring
                                       (run Sample.defaults Sample.allGood toCompletion)
                                       Sample.traffic)))%list /\
    (delivered (flow enabledWiring (run Sample.defaults Sample.allGood toCompletion)
                     Sample.traffic)
     ++ queue 2 (queues (flow enabledWiring (run Sample.defaults Sample.allGood toCompletion)
                              Sample.traffic)))%list
    = map Rfc5424.wireText (Rfc5424.StreamingParse Rfc5424.NewRfc5424Parser taken).2 /\
    Rfc5424.processed
      (counters (flow enabledWiring (run Sample.defaults Sample.allGood toCompletion)
                      Sample.traffic))
    = Z.of_nat (length taken).
Proof.
  assert (Hon : pEnabled Sample.defaults = true) by (vm_compute; reflexivity).
  assert (Hw : wiringOf (run Sample.defaults Sample.allGood toCompletion) = Some enabledWiring)
    by (vm_compute; reflexivity).
  split; [exact Hon|]. split; [exact Hw|].
  exact (proj2 (enabled_path_goes_through_parser Sample.defaults Sample.allGood toCompletion
                  enabledWiring Sample.traffic Hon Hw)).
Defined.


End FurtherInstances.
